(** * DADL lab site: a shallow embedding of models.py, admin_views.py, app.py

    The site is a Flask application: SQLAlchemy models ([models.py]),
    Flask-Admin views ([admin_views.py]) and the routes and bootstrap
    ([app.py]).  Python objects are attribute dictionaries, the database
    is one list of rows per model, and code that prints, flashes, touches
    the upload directory or raises runs in a state-and-exception monad.

    What belongs to third-party packages (bibtexparser, werkzeug's
    password hashing, Python's [int]) is taken as a section variable at
    the place where the source calls it. *)

From Stdlib Require Import ZArith Lia Ascii String.
From stdpp Require Import base strings gmap list sorting.

Local Open Scope Z_scope.
Local Open Scope string_scope.

(** ** Python values, truthiness, exceptions *)

Module Py.

(** The values that model attributes, form fields and SQL columns hold. *)
Inductive value : Type :=
| VNone
| VBool (b : bool)
| VInt (n : Z)
| VStr (s : string)
| VDateTime (t : Z).

#[global] Instance value_eq_dec : EqDecision value.
Proof. solve_decision. Defined.

(** [bool(v)]: what [if v], [not v] and [a or b] test. *)
Definition truthy (v : value) : bool :=
  match v with
  | VNone => false
  | VBool b => b
  | VInt n => negb (Z.eqb n 0)
  | VStr s => negb (String.eqb s EmptyString)
  | VDateTime _ => true
  end.

(** [str(v)] as an f-string interpolates it; only strings and [None]
    are interpolated by the code. *)
Definition str (v : value) : string :=
  match v with
  | VStr s => s
  | VNone => "None"
  | VBool true => "True"
  | VBool false => "False"
  | VInt _ => "<int>"
  | VDateTime _ => "<datetime>"
  end.

Inductive exn : Type :=
| TypeError (msg : string)
| ValueError (msg : string)
| OSError (msg : string)
| AttributeError (msg : string)
| IntegrityError (msg : string)
| LibraryError (msg : string).

Definition exn_message (e : exn) : string :=
  match e with
  | TypeError m | ValueError m | OSError m | AttributeError m
  | IntegrityError m | LibraryError m => m
  end.

Inductive result (A : Type) : Type :=
| Ok (a : A)
| Raise (e : exn).
Arguments Ok {A} a.
Arguments Raise {A} e.

(** Statements that read and write a state [S] and may raise. *)
Definition M (S A : Type) : Type := S -> result A * S.

Definition ret {S A} (a : A) : M S A := fun s => (Ok a, s).
Definition bind {S A B} (m : M S A) (k : A -> M S B) : M S B :=
  fun s => match m s with
           | (Ok a, s') => k a s'
           | (Raise e, s') => (Raise e, s')
           end.
Definition raise {S A} (e : exn) : M S A := fun s => (Raise e, s).
Definition get {S} : M S S := fun s => (Ok s, s).
Definition modify {S} (f : S -> S) : M S unit := fun s => (Ok tt, f s).
Definition lift_result {S A} (r : result A) : M S A := fun s => (r, s).

(** [try: body  except Exception as e: handler(e)].  The state the
    handler starts from is the one the body had reached when it raised:
    assignments made before the exception stay. *)
Definition try_except {S A} (body : M S A) (handler : exn -> M S A) : M S A :=
  fun s => match body s with
           | (Ok a, s') => (Ok a, s')
           | (Raise e, s') => handler e s'
           end.

Definition when {S} (c : bool) (m : M S unit) : M S unit :=
  if c then m else ret tt.

End Py.

Export Py.

Declare Scope py_scope.
Delimit Scope py_scope with py.
Notation "x <- m ;; k" := (bind m (fun x => k))
  (at level 100, m at next level, right associativity) : py_scope.
Notation "m ;; k" := (bind m (fun _ => k))
  (at level 100, right associativity) : py_scope.
Local Open Scope py_scope.

(** ** Objects and strings *)

(** A model instance, a BibTeX entry and a submitted form are dictionaries
    keyed by attribute or field name. *)
Abbreviation row := (gmap string value).

(** [obj.k]; an attribute that was never assigned reads as [None], as a
    mapped column does. *)
Definition getattr (self : row) (k : string) : value := default VNone (self !! k).
Definition setattr (k : string) (v : value) (self : row) : row := <[k := v]> self.

(** [s.replace(c, '')] for a one-character [c]. *)
Fixpoint str_remove (c : Ascii.ascii) (s : string) : string :=
  match s with
  | EmptyString => EmptyString
  | String a rest =>
      if Ascii.eqb a c then str_remove c rest else String a (str_remove c rest)
  end.

Definition startswith (c : Ascii.ascii) (s : string) : bool :=
  match s with
  | String a _ => Ascii.eqb a c
  | EmptyString => false
  end.

Fixpoint endswith (c : Ascii.ascii) (s : string) : bool :=
  match s with
  | EmptyString => false
  | String a EmptyString => Ascii.eqb a c
  | String _ rest => endswith c rest
  end.


(** ** The ORM layer: declarative schema, constructor, queries, session *)

Module Orm.

Inductive coltype : Type :=
| SqlInteger
| SqlString (n : nat)
| SqlText
| SqlBoolean
| SqlDateTime.

Inductive coldefault : Type :=
| NoDefault
| Scalar (v : value)
| UtcNow.

(** [db.Column(type, primary_key=, unique=, nullable=, default=)]. *)
Record column : Type := Column {
  col_name : string;
  col_type : coltype;
  col_primary_key : bool;
  col_unique : bool;
  col_nullable : bool;
  col_default : coldefault
}.

(** A column declared with no keyword is nullable and has no default. *)
Definition col (name : string) (ty : coltype) : column :=
  Column name ty false false true NoDefault.
Definition primary_key (c : column) : column :=
  Column (col_name c) (col_type c) true (col_unique c) false (col_default c).
Definition unique (c : column) : column :=
  Column (col_name c) (col_type c) (col_primary_key c) true (col_nullable c) (col_default c).
Definition not_null (c : column) : column :=
  Column (col_name c) (col_type c) (col_primary_key c) (col_unique c) false (col_default c).
Definition with_default (d : coldefault) (c : column) : column :=
  Column (col_name c) (col_type c) (col_primary_key c) (col_unique c) (col_nullable c) d.

(** A mapped class: its name, its columns in declaration order and the
    names of its relationship attributes. *)
Record mapper : Type := Mapper {
  cls_name : string;
  cls_columns : list column;
  cls_relationships : list string
}.

(** [hasattr(cls, k)] for the keyword names a constructor can be given:
    the mapped columns and relationships of the class. *)
Definition hasattr (cls : mapper) (k : string) : bool :=
  bool_decide (k ∈ ((col_name <$> cls_columns cls) ++ cls_relationships cls)%list).

(** The constructor every [db.Model] inherits.  It walks the keyword
    arguments in order, refuses a name the class does not have with a
    [TypeError] and assigns the others. *)
Fixpoint init_kwargs (cls : mapper) (kwargs : list (string * value)) (self : row)
  : result row :=
  match kwargs with
  | [] => Ok self
  | (k, v) :: rest =>
      if hasattr cls k then init_kwargs cls rest (setattr k v self)
      else Raise (TypeError ("'" +:+ k +:+ "' is an invalid keyword argument for "
                             +:+ cls_name cls))
  end.

Definition new (cls : mapper) (kwargs : list (string * value)) : result row :=
  init_kwargs cls kwargs ∅.

(** *** Queries *)

(** SQL [column = v] in a WHERE clause: true only for a non-NULL column
    holding exactly [v]. *)
Definition sql_eq (a v : value) : bool :=
  match a with
  | VNone => false
  | _ => bool_decide (a = v)
  end.

(** [query.filter_by(k1=v1, k2=v2, ...)]: the conjunction of the
    equalities. *)
Definition filter_by (criteria : list (string * value)) (rows : list row) : list row :=
  filter (fun r : row =>
            forallb (fun kv : string * value => sql_eq (getattr r kv.1) kv.2) criteria = true)
         rows.

(** [query.first()], [query.all()], [query.count()], [query.limit(n)]. *)
Definition first (rows : list row) : option row := head rows.
Definition all (rows : list row) : list row := rows.
Definition count (rows : list row) : nat := length rows.
Definition limit (n : nat) (rows : list row) : list row := take n rows.

(** The integer an Integer column holds, NULL otherwise. *)
Definition int_of (v : value) : option Z :=
  match v with
  | VInt n => Some n
  | _ => None
  end.

(** SQLite's ordering of an Integer column: NULL sorts below every
    number. *)
Definition null_le (a b : option Z) : Prop :=
  match a, b with
  | None, _ => True
  | Some _, None => False
  | Some x, Some y => (x <= y)%Z
  end.

#[global] Instance null_le_dec a b : Decision (null_le a b).
Proof. destruct a, b; simpl; apply _. Defined.

(** [a] comes no later than [b] under [ORDER BY k DESC]. *)
Definition desc (k : string) (a b : row) : Prop :=
  null_le (int_of (getattr b k)) (int_of (getattr a k)).

#[global] Instance desc_dec k a b : Decision (desc k a b).
Proof. unfold desc. apply _. Defined.

(** [query.order_by(Model.k.desc())].  SQL leaves the order of rows with
    equal keys open; the merge sort fixes one. *)
Definition order_by_desc (k : string) (rows : list row) : list row :=
  merge_sort (desc k) rows.

End Orm.

Export Orm.

(** *** Database and session *)

(** The stored rows of each mapped class, keyed by class name, in
    insertion order. *)
Abbreviation database := (gmap string (list row)).

Definition table (cls : mapper) (d : database) : list row :=
  default [] (d !! cls_name cls).

(** What a request or the bootstrap can read and change: the committed
    database, the objects added to the session and not yet committed, the
    operator console, the clock, the regular files and directories under
    the working directory, the identifier kept in the login session and
    the flashed messages.  Files and directories are keyed by their path
    written without [.] and [..] components; the file operations look up
    the path they are given as it is written, so they are the system's
    for paths of that form only, and the properties about files are
    stated for such paths. *)
Inductive node : Type := File | Dir.

Record world : Type := World {
  db : database;
  session_new : list (mapper * row);
  stdout : list string;
  utcnow : Z;
  fs : gmap string node;
  login_session : option Z;
  flashes : list (string * string)
}.

Definition set_db (d : database) (w : world) : world :=
  World d (session_new w) (stdout w) (utcnow w) (fs w) (login_session w) (flashes w).
Definition set_session_new (l : list (mapper * row)) (w : world) : world :=
  World (db w) l (stdout w) (utcnow w) (fs w) (login_session w) (flashes w).
Definition set_stdout (l : list string) (w : world) : world :=
  World (db w) (session_new w) l (utcnow w) (fs w) (login_session w) (flashes w).
Definition set_fs (f : gmap string node) (w : world) : world :=
  World (db w) (session_new w) (stdout w) (utcnow w) f (login_session w) (flashes w).
Definition set_login_session (u : option Z) (w : world) : world :=
  World (db w) (session_new w) (stdout w) (utcnow w) (fs w) u (flashes w).
Definition set_flashes (l : list (string * string)) (w : world) : world :=
  World (db w) (session_new w) (stdout w) (utcnow w) (fs w) (login_session w) l.

(** [print(line)]. *)
Definition print (line : string) : M world unit :=
  modify (fun w => set_stdout (stdout w ++ [line])%list w).

(** [Model.query]: the committed rows of the class.  The bootstrap only
    queries a class before it adds an object of that class, so pending
    objects never belong to the queried table. *)
Definition query (cls : mapper) : M world (list row) :=
  w <- get ;; ret (table cls (db w)).

(** [db.session.add(obj)]. *)
Definition session_add (cls : mapper) (obj : row) : M world unit :=
  modify (fun w => set_session_new (session_new w ++ [(cls, obj)])%list w).

(** The value an INSERT gives a column the object left at [None]. *)
Definition apply_default (now : Z) (c : column) (obj : row) : row :=
  match getattr obj (col_name c), col_default c with
  | VNone, Scalar v => setattr (col_name c) v obj
  | VNone, UtcNow => setattr (col_name c) (VDateTime now) obj
  | _, _ => obj
  end.

(** SQLite's row id for a fresh row: one more than the largest one. *)
Definition next_id (rows : list row) : Z :=
  1 + foldr Z.max 0 (omap (fun r : row => int_of (getattr r "id")) rows).

Definition assign_id (rows : list row) (obj : row) : row :=
  match getattr obj "id" with
  | VNone => setattr "id" (VInt (next_id rows)) obj
  | _ => obj
  end.

Definition violates_not_null (c : column) (obj : row) : bool :=
  negb (col_nullable c) && bool_decide (getattr obj (col_name c) = VNone).

Definition violates_unique (c : column) (rows : list row) (obj : row) : bool :=
  (col_unique c || col_primary_key c)
  && existsb (fun r : row => sql_eq (getattr r (col_name c)) (getattr obj (col_name c))) rows.

(** INSERT of one pending object.  Ids are integers without bound; the
    64-bit limit of the database is not modelled. *)
Definition insert_row (now : Z) (cls : mapper) (obj : row) (d : database)
  : result database :=
  let rows := table cls d in
  let obj := assign_id rows (foldr (apply_default now) obj (cls_columns cls)) in
  match List.find (fun c => violates_not_null c obj) (cls_columns cls) with
  | Some c => Raise (IntegrityError ("NOT NULL constraint failed: "
                                      +:+ cls_name cls +:+ "." +:+ col_name c))
  | None =>
      match List.find (fun c => violates_unique c rows obj) (cls_columns cls) with
      | Some c => Raise (IntegrityError ("UNIQUE constraint failed: "
                                          +:+ cls_name cls +:+ "." +:+ col_name c))
      | None => Ok (<[cls_name cls := (rows ++ [obj])%list]> d)
      end
  end.

Fixpoint flush (now : Z) (pending : list (mapper * row)) (d : database)
  : result database :=
  match pending with
  | [] => Ok d
  | (cls, obj) :: rest =>
      match insert_row now cls obj d with
      | Ok d' => flush now rest d'
      | Raise e => Raise e
      end
  end.

(** [db.session.commit()]: all pending objects are inserted, or none is
    and the error is raised. *)
Definition session_commit : M world unit :=
  fun w => match flush (utcnow w) (session_new w) (db w) with
           | Ok d => (Ok tt, set_session_new [] (set_db d w))
           | Raise e => (Raise e, w)
           end.

(** ** models.py *)

Definition AdminUser : mapper :=
  Mapper "AdminUser"
    [ primary_key (col "id" SqlInteger);
      not_null (unique (col "username" (SqlString 50)));
      not_null (col "password_hash" (SqlString 128));
      with_default (Scalar (VStr "Administrator")) (not_null (col "name" (SqlString 100))) ]
    [].

Definition Professor : mapper :=
  Mapper "Professor"
    [ primary_key (col "id" SqlInteger);
      not_null (col "name" (SqlString 100));
      with_default (Scalar (VStr "Professor")) (not_null (col "title" (SqlString 100)));
      col "bio" SqlText;
      col "education" SqlText;
      col "experience" SqlText;
      col "photo" (SqlString 200);
      col "email" (SqlString 120);
      col "office" (SqlString 100);
      col "office_hours" (SqlString 100);
      col "phone" (SqlString 20);
      col "google_scholar" (SqlString 200);
      col "linkedin" (SqlString 200);
      col "website" (SqlString 200);
      col "orcid" (SqlString 200) ]
    [].

Definition Student : mapper :=
  Mapper "Student"
    [ primary_key (col "id" SqlInteger);
      not_null (col "name" (SqlString 100));
      not_null (col "degree_type" (SqlString 20));
      col "research_focus" SqlText;
      not_null (col "school" (SqlString 200));
      col "start_date" (SqlString 20);
      col "end_date" (SqlString 20);
      col "photo" (SqlString 200);
      with_default (Scalar (VBool true)) (col "is_current" SqlBoolean);
      col "thesis_title" (SqlString 500);
      col "current_work" (SqlString 200);
      col "linkedin" (SqlString 200);
      col "website" (SqlString 200);
      col "google_scholar" (SqlString 200);
      col "email" (SqlString 120);
      with_default UtcNow (col "created_at" SqlDateTime) ]
    [ "projects" ].

Definition Project : mapper :=
  Mapper "Project"
    [ primary_key (col "id" SqlInteger);
      not_null (col "title" (SqlString 200));
      col "topic" (SqlString 200);
      not_null (col "overview" SqlText);
      with_default (Scalar (VStr "Ongoing")) (col "status" (SqlString 50));
      col "start_date" (SqlString 20);
      col "end_date" (SqlString 20);
      col "image1" (SqlString 200);
      col "image2" (SqlString 200);
      col "image3" (SqlString 200);
      col "image4" (SqlString 200);
      with_default UtcNow (col "created_at" SqlDateTime) ]
    [ "members" ].

Definition Publication : mapper :=
  Mapper "Publication"
    [ primary_key (col "id" SqlInteger);
      not_null (col "bibtex" SqlText);
      col "title" (SqlString 500);
      col "authors" (SqlString 500);
      col "venue" (SqlString 200);
      col "year" SqlInteger;
      col "url" (SqlString 500);
      col "google_scholar_url" (SqlString 500);
      with_default (Scalar (VInt 0)) (col "citations" SqlInteger);
      with_default (Scalar (VBool false)) (col "is_featured" SqlBoolean);
      with_default UtcNow (col "created_at" SqlDateTime) ]
    [].

(** The [focus_statement] column is commented out in the source, so the
    class has no such attribute. *)
Definition LabInfo : mapper :=
  Mapper "LabInfo"
    [ primary_key (col "id" SqlInteger);
      with_default (Scalar (VStr "DADL Lab")) (col "lab_name" (SqlString 200));
      with_default (Scalar (VStr "Data Analysis and Deep Learning Laboratory"))
        (col "lab_full_name" (SqlString 200));
      col "mission" SqlText;
      col "research_areas" SqlText;
      col "lab_email" (SqlString 120);
      col "lab_address" SqlText;
      col "lab_phone" (SqlString 20) ]
    [].

Section Models.

(** werkzeug.security: [generate_password_hash] with the salt it draws
    made an argument, and [check_password_hash]. *)
Variable generate_password_hash : string -> string -> string.
Variable check_password_hash : string -> string -> bool.

(** [bibtexparser.loads]: the entries of a text, each a dictionary from
    lower-cased field names to strings, or the exception the import or the
    parser raises. *)
Variable bibtexparser_loads : value -> result (list (gmap string string)).

(** Python's [int] on a string: the integer, or the [ValueError]. *)
Variable int : string -> result Z.

(** [AdminUser.set_password]. *)
Definition set_password (salt password : string) (self : row) : row :=
  setattr "password_hash" (VStr (generate_password_hash salt password)) self.

(** [AdminUser.check_password]; werkzeug splits the stored hash, which
    fails on anything but a string. *)
Definition check_password (self : row) (password : string) : result bool :=
  match getattr self "password_hash" with
  | VStr h => Ok (check_password_hash h password)
  | _ => Raise (AttributeError "object has no attribute 'split'")
  end.

(** [entry.get(k, '')] and [entry.get(k)] on a BibTeX entry. *)
Definition entry_get (entry : gmap string string) (k : string) : string :=
  default EmptyString (entry !! k).
Definition entry_get_opt (entry : gmap string string) (k : string) : value :=
  from_option VStr VNone (entry !! k).

(** A method runs on its object and the world around it. *)
Definition self_getattr (k : string) : M (row * world) value :=
  fun s => (Ok (getattr s.1 k), s).
Definition self_setattr (k : string) (v : value) : M (row * world) unit :=
  modify (fun s => (setattr k v s.1, s.2)).
Definition in_world {A} (m : M world A) : M (row * world) A :=
  fun s => let (r, w) := m s.2 in (r, (s.1, w)).

(** The body of the [try] in [Publication.parse_bibtex]. *)
Definition parse_bibtex_body : M (row * world) unit :=
  text <- self_getattr "bibtex" ;;
  bib_db <- lift_result (bibtexparser_loads text) ;;
  match bib_db with
  | [] => ret tt
  | entry :: _ =>
      self_setattr "title"
        (VStr (str_remove "}"%char (str_remove "{"%char (entry_get entry "title")))) ;;
      self_setattr "authors" (VStr (entry_get entry "author")) ;;
      self_setattr "venue"
        (if truthy (entry_get_opt entry "booktitle")
         then entry_get_opt entry "booktitle"
         else VStr (entry_get entry "journal")) ;;
      year <- (if truthy (entry_get_opt entry "year")
               then n <- lift_result (int (entry_get entry "year")) ;; ret (VInt n)
               else ret VNone) ;;
      self_setattr "year" year ;;
      self_setattr "url" (VStr (entry_get entry "url"))
  end.

(** [Publication.parse_bibtex]: the [try] body, and the handler that
    prints the error. *)
Definition parse_bibtex : M (row * world) unit :=
  try_except parse_bibtex_body
    (fun e => in_world (print ("Error parsing BibTeX: " +:+ exn_message e))).

End Models.

(** ** Requests, responses, the login session and the file system *)

Record request : Type := Request {
  req_method : string;
  req_url : string;
  req_form : gmap string string;
  req_args : gmap string string
}.

(** Where a redirect points: a literal URL, or [url_for(endpoint,
    **values)] kept symbolic (endpoint name and query values). *)
Inductive location : Type :=
| Url (raw : string)
| UrlFor (endpoint : string) (values : list (string * string)).

Definition url_for (endpoint : string) (values : list (string * string)) : location :=
  UrlFor endpoint values.

Inductive template_value : Type :=
| TObject (o : option row)
| TList (l : list row)
| TNumber (n : nat)
| TUrl (loc : location).

Inductive response : Type :=
| Redirect (loc : location)
| RenderTemplate (name : string) (context : list (string * template_value)).

Definition redirect (loc : location) : response := Redirect loc.
Definition render_template (name : string) (context : list (string * template_value))
  : response := RenderTemplate name context.

(** [flash(message, category)]. *)
Definition flash (message category : string) : M world unit :=
  modify (fun w => set_flashes (flashes w ++ [(category, message)])%list w).

(** [load_user]: [AdminUser.query.get(int(user_id))].  The session holds
    the text Flask-Login wrote at [login_user], [str(user.id)]; [int] of
    that text is the id again, so the identifier is kept as the integer
    and the conversion is left out. *)
Definition load_user (user_id : Z) (d : database) : option row :=
  first (filter_by [("id", VInt user_id)] (table AdminUser d)).

(** Flask-Login's [current_user]: the user the session identifier loads,
    anonymous ([None]) without one. *)
Definition current_user (w : world) : option row :=
  user_id ← login_session w; load_user user_id (db w).

Definition is_authenticated (u : option row) : bool := bool_decide (is_Some u).

(** [login_user(user)] keeps the user's id in the session. *)
Definition login_user (user : row) : M world unit :=
  modify (fun w => set_login_session (int_of (getattr user "id")) w).

(** [os.path.join(a, b)] on POSIX for the one call the code makes. *)
Definition os_path_join (a : string) (b : value) : result string :=
  match b with
  | VStr b =>
      Ok (if startswith "/"%char b then b
          else if String.eqb a EmptyString || endswith "/"%char a then a +:+ b
          else a +:+ "/" +:+ b)
  | _ => Raise (TypeError "expected str, bytes or os.PathLike object")
  end.

Definition os_path_exists (path : string) : M world bool :=
  w <- get ;; ret (bool_decide (is_Some (fs w !! path))).

(** [os.remove(path)]: unlinks a regular file, raises on a directory or
    on a missing path. *)
Definition os_remove (path : string) : M world unit :=
  w <- get ;;
  match fs w !! path with
  | Some File => modify (fun w => set_fs (delete path (fs w)) w)
  | Some Dir => raise (OSError ("Is a directory: " +:+ path))
  | None => raise (OSError ("No such file or directory: " +:+ path))
  end.

(** ** admin_views.py *)

(** What a submitted form field holds in [field.data]: a plain value, or
    the uploaded file of an upload field. *)
Inductive field_data : Type :=
| FieldValue (v : value)
| FileStorage (filename : string).

Abbreviation form := (gmap string field_data).

(** Python's [a != b] between a model attribute and a field's data: an
    uploaded file never equals a string. *)
Definition py_ne (a : value) (b : field_data) : bool :=
  match b with
  | FieldValue v => negb (bool_decide (a = v))
  | FileStorage _ => true
  end.

(** The two methods the views override for access control. *)
Record view : Type := View {
  is_accessible : M world bool;
  inaccessible_callback : string -> request -> response
}.

(** A model view adds the mapped class and the save hook. *)
Record model_view : Type := ModelView {
  mv_view :> view;
  mv_model : mapper;
  on_model_change : form -> bool -> M (row * world) unit
}.

(** Flask-Admin runs every exposed view through this gate: when
    [is_accessible] is false the answer is [inaccessible_callback]'s and
    the view function does not run. *)
Definition handle_view (v : view) (name : string) (req : request)
  : M world (option response) :=
  ok <- is_accessible v ;;
  if ok then ret None else ret (Some (inaccessible_callback v name req)).

Definition run_view (v : view) (name : string) (fn : request -> M world response)
  (req : request) : M world response :=
  gate <- handle_view v name req ;;
  match gate with
  | Some resp => ret resp
  | None => fn req
  end.

(** [ModelView.on_model_change] of Flask-Admin does nothing. *)
Definition ModelView_on_model_change (f : form) (is_created : bool)
  : M (row * world) unit := ret tt.

(** [AuthenticatedModelView] and [MyAdminIndexView] define the same two
    methods. *)
Definition AuthenticatedModelView_is_accessible : M world bool :=
  w <- get ;; ret (is_authenticated (current_user w)).

Definition AuthenticatedModelView_inaccessible_callback (name : string) (req : request)
  : response :=
  redirect (url_for "admin_login" [("next", req_url req)]).

Definition AuthenticatedModelView : view :=
  View AuthenticatedModelView_is_accessible AuthenticatedModelView_inaccessible_callback.

Definition MyAdminIndexView : view :=
  View (w <- get ;; ret (is_authenticated (current_user w)))
       (fun name req => redirect (url_for "admin_login" [("next", req_url req)])).

(** [MyAdminIndexView.index]: the dashboard counts. *)
Definition MyAdminIndexView_index (req : request) : M world response :=
  students <- query Student ;;
  projects <- query Project ;;
  publications <- query Publication ;;
  w <- get ;;
  ret (render_template "admin/index.html"
         [ ("current_user", TObject (current_user w));
           ("logout_url", TUrl (url_for "admin_logout" []));
           ("total_students", TNumber (count students));
           ("current_students",
            TNumber (count (filter_by [("is_current", VBool true)] students)));
           ("total_projects", TNumber (count projects));
           ("active_projects",
            TNumber (count (filter_by [("status", VStr "Ongoing")] projects)));
           ("total_publications", TNumber (count publications)) ]).

(** [ProfessorModelView.on_model_change]. *)
Definition ProfessorModelView_on_model_change (f : form) (is_created : bool)
  : M (row * world) unit :=
  match negb is_created, f !! "photo" with
  | true, Some photo_data =>
      old_photo <- self_getattr "photo" ;;
      if truthy old_photo && py_ne old_photo photo_data then
        old_path <- lift_result (os_path_join "static/uploads/professor" old_photo) ;;
        present <- in_world (os_path_exists old_path) ;;
        if present then in_world (os_remove old_path) else ret tt
      else ret tt
  | _, _ => ret tt
  end ;;
  ModelView_on_model_change f is_created.

Definition ProfessorModelView : model_view :=
  ModelView AuthenticatedModelView Professor ProfessorModelView_on_model_change.

(** [StudentModelView] and [ProjectModelView] define no hook of their
    own: they inherit Flask-Admin's. *)
Definition StudentModelView : model_view :=
  ModelView AuthenticatedModelView Student ModelView_on_model_change.

Definition ProjectModelView : model_view :=
  ModelView AuthenticatedModelView Project ModelView_on_model_change.

Definition LabInfoModelView : model_view :=
  ModelView AuthenticatedModelView LabInfo ModelView_on_model_change.

Section AdminViews.

Variable bibtexparser_loads : value -> result (list (gmap string string)).
Variable int : string -> result Z.

(** [PublicationModelView.on_model_change]. *)
Definition PublicationModelView_on_model_change (f : form) (is_created : bool)
  : M (row * world) unit :=
  parse_bibtex bibtexparser_loads int ;;
  ModelView_on_model_change f is_created.

Definition PublicationModelView : model_view :=
  ModelView AuthenticatedModelView Publication PublicationModelView_on_model_change.

End AdminViews.

(** ** app.py *)

(** [home]: the queries and the template context, in source order. *)
Definition home : M world response :=
  lab_info <- query LabInfo ;;
  professor <- query Professor ;;
  students <- query Student ;;
  let current_phd :=
    all (filter_by [("is_current", VBool true); ("degree_type", VStr "PhD")] students) in
  let current_masters :=
    all (filter_by [("is_current", VBool true); ("degree_type", VStr "Masters")] students) in
  let former_phd :=
    all (filter_by [("is_current", VBool false); ("degree_type", VStr "PhD")] students) in
  let former_masters :=
    all (filter_by [("is_current", VBool false); ("degree_type", VStr "Masters")] students) in
  projects <- query Project ;;
  let ongoing_projects := all (filter_by [("status", VStr "Ongoing")] projects) in
  let completed_projects := all (filter_by [("status", VStr "Completed")] projects) in
  publications <- query Publication ;;
  let featured_publications :=
    all (limit 5 (order_by_desc "year" (filter_by [("is_featured", VBool true)] publications))) in
  ret (render_template "single_page.html"
         [ ("lab_info", TObject (first lab_info));
           ("professor", TObject (first professor));
           ("current_phd", TList current_phd);
           ("current_masters", TList current_masters);
           ("former_phd", TList former_phd);
           ("former_masters", TList former_masters);
           ("ongoing_projects", TList ongoing_projects);
           ("completed_projects", TList completed_projects);
           ("featured_publications", TList featured_publications) ]).

(** The list a template variable holds in a response. *)
Definition context_list (name : string) (resp : response) : list row :=
  match resp with
  | RenderTemplate _ context =>
      match List.find (fun kv => String.eqb kv.1 name) context with
      | Some (_, TList l) => l
      | _ => []
      end
  | Redirect _ => []
  end.

Section App.

Variable generate_password_hash : string -> string -> string.
Variable check_password_hash : string -> string -> bool.

(** [not s] for a form value that may be missing. *)
Definition missing (s : option string) : bool :=
  negb (truthy (from_option VStr VNone s)).

(** The body of [if request.method == 'POST':] in [admin_login]:
    [Some resp] when it returns [resp], [None] when it falls through to
    the final [return]. *)
Definition admin_login_post (req : request) : M world (option response) :=
  let username := req_form req !! "username" in
  let password := req_form req !! "password" in
  if missing username || missing password then
    flash "Please enter both username and password." "error" ;;
    ret (Some (render_template "admin_login.html" []))
  else
    users <- query AdminUser ;;
    let admin_user :=
      first (filter_by [("username", from_option VStr VNone username)] users) in
    ok <- match admin_user with
          | Some u =>
              lift_result (check_password check_password_hash u
                             (default EmptyString password))
          | None => ret false
          end ;;
    match admin_user, ok with
    | Some u, true =>
        login_user u ;;
        flash ("Welcome back, " +:+ str (getattr u "name") +:+ "!") "success" ;;
        ret (Some (redirect
                     (match req_args req !! "next" with
                      | Some next_page =>
                          if truthy (VStr next_page) then Url next_page
                          else url_for "admin.index" []
                      | None => url_for "admin.index" []
                      end)))
    | _, _ =>
        flash "Invalid username or password. Please try again." "error" ;;
        ret None
    end.

(** [admin_login]. *)
Definition admin_login (req : request) : M world response :=
  w <- get ;;
  if is_authenticated (current_user w) then
    ret (redirect (url_for "admin.index" []))
  else
    returned <- (if String.eqb (req_method req) "POST"
                 then admin_login_post req else ret None) ;;
    match returned with
    | Some resp => ret resp
    | None => ret (render_template "admin_login.html" [])
    end.

(** [create_default_data]; [salt] is the salt [set_password] draws. *)
Definition create_default_data (salt : string) : M world unit :=
  existing <- query AdminUser ;;
  when (bool_decide (first existing = None))
    (admin <- lift_result (new AdminUser
               [ ("username", VStr "admin");
                 ("name", VStr "Lab Administrator") ]) ;;
     let admin := set_password generate_password_hash salt "changeme123" admin in
     session_add AdminUser admin ;;
     print "Created default admin user - username: admin, password: changeme123") ;;
  existing <- query Professor ;;
  when (bool_decide (first existing = None))
    (default_prof <- lift_result (new Professor
               [ ("name", VStr "Dr. John Smith");
                 ("title", VStr "Professor and Lab Director");
                 ("bio", VStr "Principal Investigator of the Data Analysis and Deep Learning Laboratory.");
                 ("education", VStr "Ph.D. in Computer Science from MIT (2008)");
                 ("experience", VStr "Professor at University (2015-present)");
                 ("email", VStr "jsmith@university.edu");
                 ("office", VStr "Room 301, Computer Science Building");
                 ("office_hours", VStr "Mon/Wed 2-4 PM");
                 ("google_scholar", VStr "https://scholar.google.com/citations?user=XXXXXXX");
                 ("linkedin", VStr "https://linkedin.com/in/drjohnsmith");
                 ("website", VStr "https://www.example-university.edu/~jsmith") ]) ;;
     session_add Professor default_prof ;;
     print "Created default professor profile") ;;
  existing <- query LabInfo ;;
  when (bool_decide (first existing = None))
    (lab_info <- lift_result (new LabInfo
               [ ("lab_name", VStr "DADL Lab");
                 ("lab_full_name", VStr "Data Analysis and Deep Learning Laboratory");
                 ("focus_statement", VStr "Developing innovative ML algorithms and data analysis techniques.");
                 ("mission", VStr "Advancing AI through research and training next-generation data scientists.");
                 ("research_areas", VStr "Deep Learning, Computer Vision, NLP, Reinforcement Learning");
                 ("lab_email", VStr "dadl-lab@university.edu");
                 ("lab_address", VStr "Computer Science Department, Room 301");
                 ("lab_phone", VStr "+1 (555) 123-4567") ]) ;;
     session_add LabInfo lab_info ;;
     print "Created default lab information") ;;
  existing <- query Student ;;
  when (bool_decide (first existing = None))
    (sample_student <- lift_result (new Student
               [ ("name", VStr "Jane Doe");
                 ("degree_type", VStr "PhD");
                 ("research_focus", VStr "Deep Learning for Computer Vision");
                 ("school", VStr "University Name");
                 ("start_date", VStr "Fall 2023");
                 ("is_current", VBool true);
                 ("email", VStr "jane.doe@university.edu") ]) ;;
     session_add Student sample_student ;;
     print "Created sample student") ;;
  existing <- query Project ;;
  when (bool_decide (first existing = None))
    (sample_project <- lift_result (new Project
               [ ("title", VStr "Deep Learning for Medical Image Analysis");
                 ("topic", VStr "Computer Vision");
                 ("overview", VStr "Developing novel deep learning algorithms for automated medical diagnosis.");
                 ("status", VStr "Ongoing");
                 ("start_date", VStr "Jan 2024") ]) ;;
     session_add Project sample_project ;;
     print "Created sample project") ;;
  session_commit ;;
  print "Default data creation complete!".

End App.

(** * Example data and vocabulary of the properties *)

(** A student row the schema accepts and the form does not offer. *)
Definition unclassified_student : row :=
  {[ "id" := VInt 1; "name" := VStr "Sam Lee"; "degree_type" := VStr "Postdoc";
     "school" := VStr "University Name"; "is_current" := VBool true ]}.

(** A world that holds a database and nothing else. *)
Definition world_of (d : database) : world := World d [] [] 0 ∅ None [].

Definition postdoc_world : world :=
  world_of {[ "Student" := [unclassified_student] ]}.


(** ** Vocabulary of the home page claims *)

(** The four student lists [home] hands to the template. *)
Definition student_groups (resp : response) : list (list row) :=
  (fun name => context_list name resp)
    <$> ["current_phd"; "current_masters"; "former_phd"; "former_masters"].

(** A student the form and the bootstrap can have written: a Boolean
    [is_current] and one of the two degree types. *)
Definition classified (s : row) : Prop :=
  (getattr s "is_current" = VBool true \/ getattr s "is_current" = VBool false)
  /\ (getattr s "degree_type" = VStr "PhD" \/ getattr s "degree_type" = VStr "Masters").

#[global] Instance classified_dec s : Decision (classified s).
Proof. unfold classified. apply _. Defined.


(** ** Instances of the library functions for running examples *)

(** Python's [int] on ASCII text: surrounding white space (tab to
    carriage return, and the space), an optional sign, decimal digits with
    single underscores between them. *)
Definition is_space (c : Ascii.ascii) : bool :=
  let n := N_of_ascii c in
  ((9 <=? n) && (n <=? 13) || (n =? 32))%N.

Definition digit_of (c : Ascii.ascii) : option Z :=
  let n := N_of_ascii c in
  if ((48 <=? n) && (n <=? 57))%N then Some (Z.of_N n - 48) else None.

Fixpoint lstrip (s : string) : string :=
  match s with
  | String c rest => if is_space c then lstrip rest else s
  | EmptyString => s
  end.

Definition strip (s : string) : string :=
  String.rev (lstrip (String.rev (lstrip s))).

(** [after_digit] tells whether the previous character was a digit: an
    underscore and the end of the text are only allowed after one. *)
Fixpoint digits (acc : Z) (after_digit : bool) (s : string) : option Z :=
  match s with
  | EmptyString => if after_digit then Some acc else None
  | String c rest =>
      match digit_of c with
      | Some d => digits (10 * acc + d) true rest
      | None =>
          if Ascii.eqb c "_"%char && after_digit then digits acc false rest else None
      end
  end.

Definition ascii_int (s : string) : result Z :=
  let body := strip s in
  let parsed :=
    match body with
    | String "-"%char rest => Z.opp <$> digits 0 false rest
    | String "+"%char rest => digits 0 false rest
    | _ => digits 0 false body
    end in
  match parsed with
  | Some n => Ok n
  | None => Raise (ValueError ("invalid literal for int() with base 10: '" +:+ s +:+ "'"))
  end.


(** What [bibtexparser.loads] returns on the example texts used below:
    one entry with its type, key and fields.  Other strings are given no
    entries, anything else than a string is refused. *)
Definition text_in_press : string :=
  "@article{smith2020, title = {A {Bayesian} View}, author = {Smith, A.}, journal = {JMLR}, year = {in press}}".
Definition entry_in_press : gmap string string :=
  {[ "ENTRYTYPE" := "article"; "ID" := "smith2020"; "title" := "A {Bayesian} View";
     "author" := "Smith, A."; "journal" := "JMLR"; "year" := "in press" ]}.

Definition text_forthcoming : string :=
  "@inproceedings{lee2024, title = {Sparse Models}, author = {Lee, B.}, booktitle = {ICML}, year = {forthcoming}}".
Definition entry_forthcoming : gmap string string :=
  {[ "ENTRYTYPE" := "inproceedings"; "ID" := "lee2024"; "title" := "Sparse Models";
     "author" := "Lee, B."; "booktitle" := "ICML"; "year" := "forthcoming" ]}.

Definition text_2021 : string :=
  "@article{kim2021, title = {Deep {RL}}, author = {Kim, C.}, journal = {TPAMI}, year = {2021}}".
Definition entry_2021 : gmap string string :=
  {[ "ENTRYTYPE" := "article"; "ID" := "kim2021"; "title" := "Deep {RL}";
     "author" := "Kim, C."; "journal" := "TPAMI"; "year" := "2021" ]}.

Definition example_loads (text : value) : result (list (gmap string string)) :=
  match text with
  | VStr s =>
      if String.eqb s text_in_press then Ok [entry_in_press]
      else if String.eqb s text_forthcoming then Ok [entry_forthcoming]
      else if String.eqb s text_2021 then Ok [entry_2021]
      else Ok []
  | _ => Raise (TypeError "expected string or bytes-like object")
  end.

(** A stored publication whose citation text is then edited. *)
Definition stored_publication (bibtex : string) : row :=
  {[ "id" := VInt 1; "bibtex" := VStr bibtex; "title" := VStr "Old Title";
     "authors" := VStr "Old, A."; "venue" := VStr "Old Venue"; "year" := VInt 1999;
     "url" := VStr "https://example.org/old"; "is_featured" := VBool false ]}.

(** ** Vocabulary of the BibTeX claims *)

(** The parse fails: the [try] body of [parse_bibtex] raises. *)
Definition parse_fails (loads : value -> result (list (gmap string string)))
    (int : string -> result Z) (pub : row) (w : world) : Prop :=
  exists e s, parse_bibtex_body loads int (pub, w) = (Raise e, s).

(** The fields [parse_bibtex] derives from the citation text. *)
Definition parsed_fields : list string := ["title"; "authors"; "venue"; "year"; "url"].

Definition keeps (fields : list string) (before after : row) : Prop :=
  Forall (fun k => after !! k = before !! k) fields.

(** The three assignments that precede the year conversion. *)
Definition assign_title_authors_venue (entry : gmap string string) (self : row) : row :=
  setattr "venue"
    (if truthy (entry_get_opt entry "booktitle")
     then entry_get_opt entry "booktitle"
     else VStr (entry_get entry "journal"))
    (setattr "authors" (VStr (entry_get entry "author"))
       (setattr "title"
          (VStr (str_remove "}"%char (str_remove "{"%char (entry_get entry "title"))))
          self)).

Definition empty_form : form := ∅.


(** ** Vocabulary of the access-control and login claims *)

(** The admin index and the five CRUD views registered in [app.py]. *)
Definition admin_views (loads : value -> result (list (gmap string string)))
    (int : string -> result Z) : list view :=
  [ MyAdminIndexView;
    mv_view ProfessorModelView;
    mv_view StudentModelView;
    mv_view ProjectModelView;
    mv_view (PublicationModelView loads int);
    mv_view LabInfoModelView ].

(** The two reasons a complete login attempt is rejected. *)
Inductive failure_cause : Type := UnknownUser | WrongPassword.

(** An unauthenticated POST of a non-empty username and password that is
    rejected for the given reason. *)
Definition failed_attempt (check_password_hash : string -> string -> bool)
    (cause : failure_cause) (req : request) (w : world) : Prop :=
  current_user w = None
  /\ req_method req = "POST"
  /\ exists username password,
       req_form req !! "username" = Some username /\ username <> EmptyString
       /\ req_form req !! "password" = Some password /\ password <> EmptyString
       /\ match cause with
          | UnknownUser =>
              first (filter_by [("username", VStr username)] (table AdminUser (db w))) = None
          | WrongPassword =>
              exists user,
                first (filter_by [("username", VStr username)] (table AdminUser (db w)))
                  = Some user
                /\ check_password check_password_hash user password = Ok false
          end.

Definition invalid_credentials : string * string :=
  ("error", "Invalid username or password. Please try again.").

(** Example data: a hash function that keeps the password in clear, one
    registered administrator and two login requests. *)
Definition plain_hash (salt password : string) : string := password.
Definition plain_check (pwhash password : string) : bool := String.eqb pwhash password.

Definition registered_admin : row :=
  set_password plain_hash "salt" "changeme123"
    {[ "id" := VInt 1; "username" := VStr "admin"; "name" := VStr "Lab Administrator" ]}.

Definition admin_world : world := world_of {[ "AdminUser" := [registered_admin] ]}.

Definition login_request (username password : string) : request :=
  Request "POST" "http://localhost:5000/admin-login"
    {[ "username" := username; "password" := password ]} ∅.

Definition admin_page_request : request :=
  Request "GET" "http://localhost:5000/admin/" ∅ ∅.


(** ** Example data for the upload directory and the bootstrap *)

Definition professor_upload_dir : string := "static/uploads/professor".

Definition stored_professor : row :=
  {[ "id" := VInt 1; "name" := VStr "Dr. John Smith"; "title" := VStr "Professor";
     "photo" := VStr "old.png" ]}.

Definition upload_world : world :=
  World {[ "Professor" := [stored_professor] ]} [] [] 0
        {[ "static/uploads/professor" := Dir;
           "static/uploads/professor/old.png" := File;
           "static/uploads/professor/.gitkeep" := File ]}
        (Some 1) [].

Definition photo_form (data : field_data) : form := {[ "photo" := data ]}.

(** The store of a first run: no table holds a row, nothing is pending. *)
Definition first_run (console : list string) (now : Z) (files : gmap string node) : world :=
  World ∅ [] console now files None [].

(** A store in which only the lab information already exists. *)
Definition lab_info_only : world :=
  world_of {[ "LabInfo" := [ ({[ "id" := VInt 1; "lab_name" := VStr "DADL Lab" ]} : row) ] ]}.

(** The characters of a string. *)
Fixpoint chars (s : string) : list Ascii.ascii :=
  match s with
  | EmptyString => []
  | String c rest => c :: chars rest
  end.


(** ** Flask-Admin's image upload field and the update path *)


(** A file name without directory part, as the upload field stores them. *)
Definition plain_name (s : string) : Prop :=
  s <> EmptyString /\ ("/"%char ∉ chars s) /\ s <> "." /\ s <> "..".

Section UploadField.

(** The name the field stores for an uploaded file ([secure_filename] of
    the client's name, with the extension of the saved image format), and
    the thumbnail's name ([thumbgen_filename]). *)
Variable stored_filename : string -> string.
Variable thumbnail_fn : string -> string.








End UploadField.





(** ** werkzeug's values at the passwords used below *)








(** ** A citation text with two entries *)

Definition text_two_entries : string :=
  "@article{smith2020, title = {A {Bayesian} View}, author = {Smith, A.}, journal = {JMLR}, year = {in press}} @article{kim2021, title = {Deep {RL}}, author = {Kim, C.}, journal = {TPAMI}, year = {2021}, url = {https://example.org/kim2021}}".

Definition entry_2021_url : gmap string string :=
  {[ "ENTRYTYPE" := "article"; "ID" := "kim2021"; "title" := "Deep {RL}";
     "author" := "Kim, C."; "journal" := "TPAMI"; "year" := "2021";
     "url" := "https://example.org/kim2021" ]}.

(** [bibtexparser.loads] on that text: both entries, in the order of the
    text. *)
Definition example_loads_two (text : value) : result (list (gmap string string)) :=
  match text with
  | VStr s =>
      if String.eqb s text_two_entries then Ok [entry_in_press; entry_2021_url]
      else example_loads text
  | _ => example_loads text
  end.

(** * The remaining routes of app.py *)

(** [logout_user()] forgets the identifier kept in the session. *)
Definition logout_user : M world unit :=
  modify (fun w => set_login_session None w).

(** [@login_required]: Flask-Login answers a request without an
    authenticated user itself, through its [unauthorized] handler (a
    parameter here), and calls the view otherwise. *)
Definition login_required (unauthorized : request -> M world response)
    (fn : request -> M world response) (req : request) : M world response :=
  w <- get ;;
  if is_authenticated (current_user w) then fn req else unauthorized req.

(** The body of [admin_logout]; [current_user.name] fails on the
    anonymous user, which has no such attribute. *)
Definition admin_logout_body (req : request) : M world response :=
  w <- get ;;
  user_name <- match current_user w with
               | Some u => ret (getattr u "name")
               | None => raise (AttributeError
                                  "'AnonymousUserMixin' object has no attribute 'name'")
               end ;;
  logout_user ;;
  flash ("Goodbye, " +:+ str user_name +:+ "! You have been logged out successfully.")
        "info" ;;
  ret (redirect (url_for "admin_login" [])).

(** [admin_logout] with its decorator. *)
Definition admin_logout (unauthorized : request -> M world response)
  : request -> M world response :=
  login_required unauthorized admin_logout_body.

(** [project_detail]: the two arguments handed to the template.
    [get_or_404] raises werkzeug's NotFound when no row has the id. *)
Record project_page : Type := ProjectPage {
  page_project : row;
  page_additional_images : list value
}.

Definition get_or_404 (cls : mapper) (ident : Z) : M world row :=
  rows <- query cls ;;
  match first (filter_by [("id", VInt ident)] rows) with
  | Some r => ret r
  | None => raise (LibraryError "404 Not Found")
  end.

Definition project_detail (project_id : Z) : M world project_page :=
  project <- get_or_404 Project project_id ;;
  let additional_images :=
    List.filter truthy
      [getattr project "image2"; getattr project "image3"; getattr project "image4"] in
  ret (ProjectPage project additional_images).

(** The object and the number a template variable holds in a response. *)
Definition context_object (name : string) (resp : response) : option row :=
  match resp with
  | RenderTemplate _ context =>
      match List.find (fun kv => String.eqb kv.1 name) context with
      | Some (_, TObject o) => o
      | _ => None
      end
  | Redirect _ => None
  end.

Definition context_number (name : string) (resp : response) : nat :=
  match resp with
  | RenderTemplate _ context =>
      match List.find (fun kv => String.eqb kv.1 name) context with
      | Some (_, TNumber n) => n
      | _ => 0%nat
      end
  | Redirect _ => 0%nat
  end.

(** A project the status form can have written. *)
Definition has_status (p : row) : Prop :=
  getattr p "status" = VStr "Ongoing" \/ getattr p "status" = VStr "Completed".

#[global] Instance has_status_dec p : Decision (has_status p).
Proof. unfold has_status. apply _. Defined.

(** The venue [parse_bibtex] picks: the booktitle when the entry has a
    non-empty one, else the journal, else the empty string. *)
Definition entry_venue (entry : gmap string string) : string :=
  match entry !! "booktitle" with
  | Some b => if String.eqb b EmptyString then entry_get entry "journal" else b
  | None => entry_get entry "journal"
  end.

(** Whether a constructor call returned an object. *)
Definition is_ok {A} (r : result A) : bool :=
  match r with
  | Ok _ => true
  | Raise _ => false
  end.

(** A store that holds lab information, possibly publications, and no
    other row: the state of a first run once the lab information exists. *)
Definition lab_info_store (labs publications : list row) (console : list string)
    (now : Z) (files : gmap string node) : world :=
  World {[ "LabInfo" := labs; "Publication" := publications ]} [] console now files None [].

(** The rows the bootstrap commits into empty tables: the keyword values
    of [create_default_data], the id 1 of a first row and the column
    defaults an INSERT fills in. *)
Definition seeded_admin (password_hash : string) : row :=
  {[ "id" := VInt 1; "username" := VStr "admin"; "name" := VStr "Lab Administrator";
     "password_hash" := VStr password_hash ]}.

Definition seeded_professor : row :=
  {[ "id" := VInt 1;
     "name" := VStr "Dr. John Smith";
     "title" := VStr "Professor and Lab Director";
     "bio" := VStr "Principal Investigator of the Data Analysis and Deep Learning Laboratory.";
     "education" := VStr "Ph.D. in Computer Science from MIT (2008)";
     "experience" := VStr "Professor at University (2015-present)";
     "email" := VStr "jsmith@university.edu";
     "office" := VStr "Room 301, Computer Science Building";
     "office_hours" := VStr "Mon/Wed 2-4 PM";
     "google_scholar" := VStr "https://scholar.google.com/citations?user=XXXXXXX";
     "linkedin" := VStr "https://linkedin.com/in/drjohnsmith";
     "website" := VStr "https://www.example-university.edu/~jsmith" ]}.

Definition seeded_student (now : Z) : row :=
  {[ "id" := VInt 1;
     "name" := VStr "Jane Doe";
     "degree_type" := VStr "PhD";
     "research_focus" := VStr "Deep Learning for Computer Vision";
     "school" := VStr "University Name";
     "start_date" := VStr "Fall 2023";
     "is_current" := VBool true;
     "email" := VStr "jane.doe@university.edu";
     "created_at" := VDateTime now ]}.

Definition seeded_project (now : Z) : row :=
  {[ "id" := VInt 1;
     "title" := VStr "Deep Learning for Medical Image Analysis";
     "topic" := VStr "Computer Vision";
     "overview" := VStr "Developing novel deep learning algorithms for automated medical diagnosis.";
     "status" := VStr "Ongoing";
     "start_date" := VStr "Jan 2024";
     "created_at" := VDateTime now ]}.

(** ** Example data for the remaining routes *)

(** The registered administrator, logged in. *)
Definition logged_in_world : world := set_login_session (Some 1) admin_world.

(** A session left over from an administrator whose row is gone. *)
Definition stale_world : world := set_login_session (Some 7) admin_world.

Definition login_request_next (username password next_page : string) : request :=
  Request "POST" "http://localhost:5000/admin-login"
    {[ "username" := username; "password" := password ]} {[ "next" := next_page ]}.

(** Flask-Login's handler as configured with [login_view = 'admin_login']. *)
Definition example_unauthorized (req : request) : M world response :=
  ret (redirect (url_for "admin_login" [("next", req_url req)])).

Definition stored_project : row :=
  {[ "id" := VInt 1; "title" := VStr "Deep Learning for Medical Image Analysis";
     "overview" := VStr "Overview"; "status" := VStr "Ongoing";
     "image1" := VStr "cover.png"; "image2" := VStr "plot.png";
     "image3" := VStr EmptyString ]}.

Definition project_world : world := world_of {[ "Project" := [stored_project] ]}.

Definition absolute_photo_professor : row :=
  {[ "id" := VInt 1; "name" := VStr "Dr. John Smith"; "photo" := VStr "/srv/site/app.py" ]}.

Definition absolute_photo_world : world :=
  World {[ "Professor" := [absolute_photo_professor] ]} [] [] 0
        {[ "/srv/site/app.py" := File; "static/uploads/professor" := Dir ]}
        (Some 1) [].

(** A store in which every seeded table holds a row. *)
Definition populated_world : world :=
  world_of {[ "AdminUser" := [registered_admin];
              "Professor" := [stored_professor];
              "LabInfo" := [ ({[ "id" := VInt 1; "lab_name" := VStr "DADL Lab" ]} : row) ];
              "Student" := [unclassified_student];
              "Project" := [stored_project] ]}.

(** * Properties *)

(** ** The home page *)

(** Two filters that exclude each other split the filter of their
    disjunction. *)
Section Lists.
Context {A : Type}.

Lemma filter_app_disjoint (P Q : A -> Prop)
    `{!forall x, Decision (P x)} `{!forall x, Decision (Q x)} (l : list A) :
  (forall x, P x -> Q x -> False) ->
  filter P l ++ filter Q l ≡ₚ filter (fun x => P x \/ Q x) l.
Proof.
  intros Hex. induction l as [|x l IH]; [done|].
  rewrite !filter_cons.
  destruct (decide (P x)) as [HP|HP], (decide (Q x)) as [HQ|HQ].
  - destruct (Hex x HP HQ).
  - rewrite decide_True by auto. simpl. by rewrite IH.
  - rewrite decide_True by auto. rewrite <- Permutation_middle. by rewrite IH.
  - rewrite decide_False by tauto. done.
Qed.

End Lists.

Lemma sql_eq_true a v : sql_eq a v = true <-> a = v /\ a <> VNone.
Proof.
  unfold sql_eq. destruct a; split; try (intros [? ?]; congruence); try discriminate;
    intros H; try (apply bool_decide_eq_true in H; done);
    destruct H as [-> _]; by apply bool_decide_eq_true.
Qed.

Lemma elem_of_filter_by crit rows (r : row) :
  r ∈ filter_by crit rows <->
  Forall (fun kv : string * value => getattr r kv.1 = kv.2 /\ kv.2 <> VNone) crit /\ r ∈ rows.
Proof.
  unfold filter_by. rewrite list_elem_of_filter.
  rewrite forallb_forall, Forall_forall.
  split; intros [H ?]; split; try done; intros kv Hkv.
  - apply list_elem_of_In in Hkv. specialize (H kv Hkv).
    apply sql_eq_true in H as [-> ?]. done.
  - apply list_elem_of_In in Hkv. apply sql_eq_true.
    destruct (H kv Hkv) as [-> ?]. done.
Qed.

Lemma filter_by_two k1 v1 k2 v2 rows (r : row) :
  r ∈ filter_by [(k1, v1); (k2, v2)] rows ->
  getattr r k1 = v1 /\ getattr r k2 = v2.
Proof.
  intros [H _]%elem_of_filter_by.
  apply Forall_cons in H as [[? _] H']. apply Forall_cons in H' as [[? _] _]. done.
Qed.

Lemma filter_by_two_iff k1 v1 k2 v2 (r : row) :
  v1 <> VNone -> v2 <> VNone ->
  (forallb (fun kv : string * value => sql_eq (getattr r kv.1) kv.2) [(k1, v1); (k2, v2)] = true)
  <-> getattr r k1 = v1 /\ getattr r k2 = v2.
Proof.
  intros ? ?. simpl. rewrite !andb_true_iff, !sql_eq_true. split.
  - intros [[? _] [[? _] _]]. done.
  - intros [-> ->]. done.
Qed.

(** C4 (amended).  For every database state [home] returns four student
    lists that are pairwise disjoint and that together hold, as often as
    the table does, exactly the students whose [is_current] is true or
    false and whose [degree_type] is PhD or Masters. *)
Theorem home_student_groups (w : world) :
  exists resp current_phd current_masters former_phd former_masters,
    home w = (Ok resp, w)
    /\ student_groups resp = [current_phd; current_masters; former_phd; former_masters]
    /\ (forall i j gi gj s,
          student_groups resp !! i = Some gi -> student_groups resp !! j = Some gj ->
          i <> j -> s ∈ gi -> s ∉ gj)
    /\ current_phd ++ current_masters ++ former_phd ++ former_masters
         ≡ₚ filter classified (table Student (db w)).
Proof.
  pose (students := table Student (db w)).
  eexists.
  exists (filter_by [("is_current", VBool true); ("degree_type", VStr "PhD")] students),
         (filter_by [("is_current", VBool true); ("degree_type", VStr "Masters")] students),
         (filter_by [("is_current", VBool false); ("degree_type", VStr "PhD")] students),
         (filter_by [("is_current", VBool false); ("degree_type", VStr "Masters")] students).
  subst students.
  split; [cbv [home query bind get ret]; reflexivity|].
  split; [reflexivity|]. split.
  - intros i j gi gj s Hi Hj Hij Hs Hs'.
    destruct i as [|[|[|[|i]]]]; simpl in Hi; try discriminate; injection Hi as <-;
    destruct j as [|[|[|[|j]]]]; simpl in Hj; try discriminate; injection Hj as <-;
    try congruence;
    apply filter_by_two in Hs as [H1 H2]; apply filter_by_two in Hs' as [H3 H4];
    congruence.
  - unfold filter_by.
    rewrite (filter_app_disjoint _ _ (table Student (db w))).
    2:{ intros x [H1 H2]%filter_by_two_iff [H3 H4]%filter_by_two_iff; congruence. }
    rewrite (app_assoc (filter _ _)).
    rewrite (filter_app_disjoint _ _ (table Student (db w))).
    2:{ intros x [H1 H2]%filter_by_two_iff [H3 H4]%filter_by_two_iff; congruence. }
    rewrite (filter_app_disjoint _ _ (table Student (db w))).
    2:{ intros x [[H1 H2]%filter_by_two_iff|[H1 H2]%filter_by_two_iff]
                 [[H3 H4]%filter_by_two_iff|[H3 H4]%filter_by_two_iff]; congruence. }
    erewrite list_filter_iff; [reflexivity|].
    intros x. rewrite !filter_by_two_iff by done. unfold classified. tauto.
Qed.

(** Counterexample to C4 as stated.  A stored student with degree type
    Postdoc is in none of the four lists. *)
Lemma home_student_groups_not_total :
  exists resp, home postdoc_world = (Ok resp, postdoc_world)
    /\ unclassified_student ∈ table Student (db postdoc_world)
    /\ forall g, g ∈ student_groups resp -> unclassified_student ∉ g.
Proof.
  eexists. split; [cbv [home query bind get ret]; reflexivity|]. split.
  - vm_compute. left.
  - intros g Hg. vm_compute in Hg.
    repeat (apply elem_of_cons in Hg as [->|Hg]); try apply not_elem_of_nil.
    by apply elem_of_nil in Hg.
Qed.

#[local] Instance null_le_total : Total null_le.
Proof. intros [x|] [y|]; simpl; auto. lia. Qed.

#[local] Instance null_le_trans : Transitive null_le.
Proof. intros [x|] [y|] [z|]; simpl; auto; try lia; tauto. Qed.

#[local] Instance desc_total k : Total (desc k).
Proof. intros a b. unfold desc. destruct (total null_le (int_of (getattr a k)) (int_of (getattr b k))); auto. Qed.

#[local] Instance desc_trans k : Transitive (desc k).
Proof. intros a b c. unfold desc. intros H1 H2. by etrans. Qed.

Lemma order_by_desc_sorted k rows : StronglySorted (desc k) (order_by_desc k rows).
Proof. apply StronglySorted_merge_sort; apply _. Qed.

Lemma order_by_desc_perm k rows : order_by_desc k rows ≡ₚ rows.
Proof. apply merge_sort_Permutation. Qed.

Lemma limit_sorted k n rows :
  StronglySorted (desc k) rows -> StronglySorted (desc k) (limit n rows).
Proof.
  intros H. unfold limit. rewrite <- (take_drop n rows) in H.
  by apply StronglySorted_app_1_l in H.
Qed.

(** C9.  For every database state the featured publications of [home]
    are the first five of the featured rows ranked by year, latest first
    and rows without a year last: each one is stored with [is_featured]
    true, there are at most five, and they are in descending order of
    year. *)
Theorem home_featured_publications (w : world) :
  exists resp ranked,
    home w = (Ok resp, w)
    /\ ranked ≡ₚ filter_by [("is_featured", VBool true)] (table Publication (db w))
    /\ StronglySorted (desc "year") ranked
    /\ context_list "featured_publications" resp = take 5 ranked
    /\ Forall (fun p : row => getattr p "is_featured" = VBool true
                              /\ p ∈ table Publication (db w))
              (context_list "featured_publications" resp)
    /\ (length (context_list "featured_publications" resp) <= 5)%nat
    /\ StronglySorted (desc "year") (context_list "featured_publications" resp).
Proof.
  eexists.
  exists (order_by_desc "year" (filter_by [("is_featured", VBool true)] (table Publication (db w)))).
  split; [cbv [home query bind get ret]; reflexivity|].
  split; [apply order_by_desc_perm|].
  split; [apply order_by_desc_sorted|].
  split; [reflexivity|].
  change (context_list "featured_publications" _)
    with (limit 5 (order_by_desc "year"
             (filter_by [("is_featured", VBool true)] (table Publication (db w))))).
  split; [|split].
  - apply Forall_forall. intros p Hp. unfold limit in Hp.
    apply subseteq_take in Hp. rewrite order_by_desc_perm in Hp.
    apply elem_of_filter_by in Hp as [Hf ?].
    apply Forall_cons in Hf as [[? _] _]. done.
  - unfold limit. rewrite length_take. lia.
  - apply limit_sorted, order_by_desc_sorted.
Qed.

(** ** BibTeX ingestion *)

Section ParseBibtex.

Variable loads : value -> result (list (gmap string string)).
Variable int : string -> result Z.

(** The [try] body, case by case. *)
Lemma parse_bibtex_body_run (pub : row) (w : world) :
  parse_bibtex_body loads int (pub, w) =
  match loads (getattr pub "bibtex") with
  | Raise e => (Raise e, (pub, w))
  | Ok [] => (Ok tt, (pub, w))
  | Ok (entry :: _) =>
      let pub1 := assign_title_authors_venue entry pub in
      if truthy (entry_get_opt entry "year") then
        match int (entry_get entry "year") with
        | Ok n => (Ok tt, (setattr "url" (VStr (entry_get entry "url"))
                             (setattr "year" (VInt n) pub1), w))
        | Raise e => (Raise e, (pub1, w))
        end
      else (Ok tt, (setattr "url" (VStr (entry_get entry "url"))
                      (setattr "year" VNone pub1), w))
  end.
Proof.
  unfold parse_bibtex_body, bind, self_getattr, lift_result. simpl.
  destruct (loads (getattr pub "bibtex")) as [[|entry rest]|e]; try reflexivity.
  unfold self_setattr, modify, ret. simpl.
  destruct (truthy (entry_get_opt entry "year")); [|reflexivity].
  destruct (int (entry_get entry "year")); reflexivity.
Qed.

(** [parse_bibtex] never raises: it returns the object and the world the
    [try] body reached, with one console line more when the body raised. *)
Lemma parse_bibtex_run (pub : row) (w : world) :
  parse_bibtex loads int (pub, w) =
  match parse_bibtex_body loads int (pub, w) with
  | (Ok _, s) => (Ok tt, s)
  | (Raise e, (pub', w')) =>
      (Ok tt, (pub', set_stdout (stdout w' ++ ["Error parsing BibTeX: " +:+ exn_message e]) w'))
  end.
Proof.
  unfold parse_bibtex, try_except.
  destruct (parse_bibtex_body loads int (pub, w)) as [[[]|e] [pub' w']]; reflexivity.
Qed.

Lemma on_model_change_run (f : form) (is_created : bool) (pub : row) (w : world) :
  PublicationModelView_on_model_change loads int f is_created (pub, w) =
  parse_bibtex loads int (pub, w).
Proof.
  unfold PublicationModelView_on_model_change, ModelView_on_model_change, bind, ret.
  rewrite parse_bibtex_run.
  destruct (parse_bibtex_body loads int (pub, w)) as [[[]|e] [pub' w']]; reflexivity.
Qed.

Lemma assign_title_authors_venue_other entry (pub : row) k :
  k <> "title" -> k <> "authors" -> k <> "venue" ->
  assign_title_authors_venue entry pub !! k = pub !! k.
Proof.
  intros. unfold assign_title_authors_venue, setattr.
  by rewrite !lookup_insert_ne.
Qed.

End ParseBibtex.

Section PublicationSave.

Variable loads : value -> result (list (gmap string string)).
Variable int : string -> result Z.

Lemma truthy_entry_year (entry : gmap string string) :
  truthy (entry_get_opt entry "year") = true <->
  exists y, entry !! "year" = Some y /\ y <> EmptyString.
Proof.
  unfold entry_get_opt. destruct (entry !! "year") as [y|]; simpl.
  - rewrite negb_true_iff. split.
    + intros H. exists y. split; [done|]. intros ->. discriminate.
    + intros (y' & [= <-] & Hy). by apply String.eqb_neq.
  - split; [discriminate|]. intros (? & ? & ?). discriminate.
Qed.

(** C2 (amended).  A save of a Publication whose parse fails returns
    without raising and leaves [year] and [url] as they were.  When the
    failure is bibtexparser's, every attribute of the record is left as it
    was; when it is the conversion of the first entry's year, [title],
    [authors] and [venue] have already been assigned from that entry. *)
Theorem publication_save_parse_failure
    (f : form) (is_created : bool) (pub : row) (w : world) :
  parse_fails loads int pub w ->
  exists pub' w',
    PublicationModelView_on_model_change loads int f is_created (pub, w)
      = (Ok tt, (pub', w'))
    /\ keeps ["year"; "url"] pub pub'
    /\ ((exists e, loads (getattr pub "bibtex") = Raise e) -> pub' = pub)
    /\ (forall entry rest, loads (getattr pub "bibtex") = Ok (entry :: rest) ->
          pub' = assign_title_authors_venue entry pub).
Proof.
  intros (e & s & Hfail).
  rewrite on_model_change_run, parse_bibtex_run, Hfail. destruct s as [pub' w'].
  do 2 eexists. split; [reflexivity|].
  rewrite parse_bibtex_body_run in Hfail.
  destruct (loads (getattr pub "bibtex")) as [[|entry rest]|e0].
  - discriminate.
  - simpl in Hfail.
    destruct (truthy (entry_get_opt entry "year")); [|discriminate].
    destruct (int (entry_get entry "year")); [discriminate|].
    injection Hfail as _ <- _.
    split; [|split].
    + repeat constructor; by apply assign_title_authors_venue_other.
    + intros [? ?]. discriminate.
    + intros ? ? [= <- _]. reflexivity.
  - injection Hfail as _ <- _.
    split; [|split].
    + repeat constructor.
    + done.
    + intros ? ? ?. discriminate.
Qed.

(** C3 (amended).  For the entry [parse_bibtex] processes, [year]
    becomes the integer of the entry's year field when that field is
    present, not empty and numeric; it becomes [None] when the field is
    absent or empty; and when the field is present, not empty and not
    numeric the conversion error is swallowed and [year] keeps the value
    it had. *)
Theorem parse_bibtex_year (pub : row) (w : world) entry rest :
  loads (getattr pub "bibtex") = Ok (entry :: rest) ->
  exists pub' w',
    parse_bibtex loads int (pub, w) = (Ok tt, (pub', w'))
    /\ (forall y n, entry !! "year" = Some y -> y <> EmptyString -> int y = Ok n ->
          getattr pub' "year" = VInt n)
    /\ (entry !! "year" = None \/ entry !! "year" = Some EmptyString ->
          getattr pub' "year" = VNone)
    /\ (forall y e, entry !! "year" = Some y -> y <> EmptyString -> int y = Raise e ->
          pub' !! "year" = pub !! "year").
Proof.
  intros Hloads. rewrite parse_bibtex_run, parse_bibtex_body_run, Hloads. simpl.
  destruct (truthy (entry_get_opt entry "year")) eqn:Hy.
  - apply truthy_entry_year in Hy as (y & Hy & Hne).
    unfold entry_get. rewrite Hy. simpl.
    destruct (int y) as [n|e] eqn:Hint; do 2 eexists; (split; [reflexivity|]).
    + split; [|split].
      * intros y' n' [= <-] _ Hn. rewrite Hint in Hn. injection Hn as <-.
        unfold getattr, setattr. by rewrite lookup_insert_ne, lookup_insert_eq.
      * intros [?|[= ->]]; congruence.
      * intros y' e' [= <-] _ He. congruence.
    + split; [|split].
      * intros y' n' [= <-] _ Hn. congruence.
      * intros [?|[= ->]]; congruence.
      * intros _ _ _ _ _. by apply assign_title_authors_venue_other.
  - do 2 eexists. split; [reflexivity|]. split; [|split].
    + intros y n Hy' Hne _.
      assert (truthy (entry_get_opt entry "year") = true) by (apply truthy_entry_year; eauto).
      congruence.
    + intros _. unfold getattr, setattr. by rewrite lookup_insert_ne, lookup_insert_eq.
    + intros y e Hy' Hne _.
      assert (truthy (entry_get_opt entry "year") = true) by (apply truthy_entry_year; eauto).
      congruence.
Qed.

(** C10 (amended).  When the text parses to at least one entry and the
    FIRST entry's year is absent, empty or numeric, the save replaces
    [url] by the first entry's url, the empty string when that entry has
    none; the entries after the first play no part. *)
Theorem publication_save_overwrites_url
    (f : form) (is_created : bool) (pub : row) (w : world) entry rest :
  loads (getattr pub "bibtex") = Ok (entry :: rest) ->
  (entry !! "year" = None \/ entry !! "year" = Some EmptyString
   \/ exists y n, entry !! "year" = Some y /\ int y = Ok n) ->
  exists pub' w',
    PublicationModelView_on_model_change loads int f is_created (pub, w)
      = (Ok tt, (pub', w'))
    /\ pub' !! "url" = Some (VStr (default EmptyString (entry !! "url")))
    /\ (entry !! "url" = None -> pub' !! "url" = Some (VStr EmptyString)).
Proof.
  intros Hloads Hyear.
  rewrite on_model_change_run, parse_bibtex_run, parse_bibtex_body_run, Hloads. simpl.
  assert (Hurl : forall (p : row),
             setattr "url" (VStr (entry_get entry "url")) p !! "url"
             = Some (VStr (default EmptyString (entry !! "url")))).
  { intros p. unfold setattr. by rewrite lookup_insert_eq. }
  assert (Hnone : entry !! "url" = None ->
                  Some (VStr (default EmptyString (entry !! "url"))) = Some (VStr EmptyString)).
  { by intros ->. }
  destruct (truthy (entry_get_opt entry "year")) eqn:Hy.
  - apply truthy_entry_year in Hy as (y & Hy & Hne).
    destruct Hyear as [?|[?|(y' & n & Hy' & Hint)]]; [congruence|congruence|].
    assert (y' = y) as -> by congruence.
    unfold entry_get at 1. rewrite Hy. simpl. rewrite Hint.
    do 2 eexists. split; [reflexivity|]. rewrite Hurl. auto.
  - do 2 eexists. split; [reflexivity|]. rewrite Hurl. auto.
Qed.

End PublicationSave.

(** Counterexample to C2 as stated.  The stored record's text is replaced
    by an entry whose year is "in press": the parse fails at the year
    conversion, after [title], [authors] and [venue] were assigned, so the
    parsed fields do not all keep their values. *)
Lemma publication_save_parse_failure_overwrites :
  parse_fails example_loads ascii_int (stored_publication text_in_press) (world_of ∅)
  /\ exists pub' w',
       PublicationModelView_on_model_change example_loads ascii_int empty_form false
         (stored_publication text_in_press, world_of ∅) = (Ok tt, (pub', w'))
       /\ getattr (stored_publication text_in_press) "title" = VStr "Old Title"
       /\ getattr pub' "title" = VStr "A Bayesian View"
       /\ ~ keeps parsed_fields (stored_publication text_in_press) pub'.
Proof.
  split.
  - do 2 eexists. vm_compute. reflexivity.
  - exists (assign_title_authors_venue entry_in_press (stored_publication text_in_press)),
           (set_stdout
              ["Error parsing BibTeX: invalid literal for int() with base 10: 'in press'"]
              (world_of ∅)).
    split; [vm_compute; reflexivity|].
    split; [vm_compute; reflexivity|]. split; [vm_compute; reflexivity|].
    assert (Hne : assign_title_authors_venue entry_in_press
                    (stored_publication text_in_press) !! "title"
                  <> stored_publication text_in_press !! "title")
      by (vm_compute; discriminate).
    intros H. apply Forall_cons in H as [H _]. exact (Hne H).
Qed.

(** The same save, as an instance of the theorem. *)
Lemma publication_save_parse_failure_witness :
  parse_fails example_loads ascii_int (stored_publication text_in_press) (world_of ∅)
  /\ exists pub' w',
       PublicationModelView_on_model_change example_loads ascii_int empty_form false
         (stored_publication text_in_press, world_of ∅) = (Ok tt, (pub', w'))
       /\ keeps ["year"; "url"] (stored_publication text_in_press) pub'
       /\ ((exists e, example_loads (getattr (stored_publication text_in_press) "bibtex")
                      = Raise e) -> pub' = stored_publication text_in_press)
       /\ (forall entry rest,
             example_loads (getattr (stored_publication text_in_press) "bibtex")
               = Ok (entry :: rest) ->
             pub' = assign_title_authors_venue entry (stored_publication text_in_press)).
Proof.
  assert (H : parse_fails example_loads ascii_int
                (stored_publication text_in_press) (world_of ∅)).
  { do 2 eexists. vm_compute. reflexivity. }
  split; [exact H|].
  exact (publication_save_parse_failure example_loads ascii_int empty_form false
           (stored_publication text_in_press) (world_of ∅) H).
Defined.

(** Counterexample to C3 as stated.  The entry's year is "forthcoming",
    which is present and not numeric; the record's year was 1999 and is
    still 1999 after the parse, not [None]. *)
Lemma parse_bibtex_year_not_reset :
  example_loads (getattr (stored_publication text_forthcoming) "bibtex")
    = Ok [entry_forthcoming]
  /\ entry_forthcoming !! "year" = Some "forthcoming"
  /\ (exists e, ascii_int "forthcoming" = Raise e)
  /\ exists pub' w',
       parse_bibtex example_loads ascii_int
         (stored_publication text_forthcoming, world_of ∅) = (Ok tt, (pub', w'))
       /\ getattr pub' "year" = VInt 1999
       /\ getattr pub' "year" <> VNone.
Proof.
  split; [vm_compute; reflexivity|]. split; [vm_compute; reflexivity|].
  split; [eexists; vm_compute; reflexivity|].
  exists (assign_title_authors_venue entry_forthcoming (stored_publication text_forthcoming)),
         (set_stdout
            ["Error parsing BibTeX: invalid literal for int() with base 10: 'forthcoming'"]
            (world_of ∅)).
  split; [vm_compute; reflexivity|].
  split; [vm_compute; reflexivity|]. vm_compute. discriminate.
Qed.

(** An entry with year 2021. *)
Lemma parse_bibtex_year_witness :
  example_loads (getattr (stored_publication text_2021) "bibtex") = Ok [entry_2021]
  /\ exists pub' w',
       parse_bibtex example_loads ascii_int (stored_publication text_2021, world_of ∅)
         = (Ok tt, (pub', w'))
       /\ (forall y n, entry_2021 !! "year" = Some y -> y <> EmptyString ->
             ascii_int y = Ok n -> getattr pub' "year" = VInt n)
       /\ (entry_2021 !! "year" = None \/ entry_2021 !! "year" = Some EmptyString ->
             getattr pub' "year" = VNone)
       /\ (forall y e, entry_2021 !! "year" = Some y -> y <> EmptyString ->
             ascii_int y = Raise e ->
             pub' !! "year" = stored_publication text_2021 !! "year").
Proof.
  split; [reflexivity|].
  apply (parse_bibtex_year example_loads ascii_int
           (stored_publication text_2021) (world_of ∅) entry_2021 []).
  reflexivity.
Defined.

(** An entry with a numeric year and no url: the stored url is replaced
    by the empty string. *)
Lemma publication_save_overwrites_url_witness :
  example_loads (getattr (stored_publication text_2021) "bibtex") = Ok [entry_2021]
  /\ (exists y n, entry_2021 !! "year" = Some y /\ ascii_int y = Ok n)
  /\ exists pub' w',
       PublicationModelView_on_model_change example_loads ascii_int empty_form false
         (stored_publication text_2021, world_of ∅) = (Ok tt, (pub', w'))
       /\ pub' !! "url" = Some (VStr (default EmptyString (entry_2021 !! "url")))
       /\ (entry_2021 !! "url" = None -> pub' !! "url" = Some (VStr EmptyString)).
Proof.
  assert (Hy : exists y n, entry_2021 !! "year" = Some y /\ ascii_int y = Ok n).
  { exists "2021", 2021. split; reflexivity. }
  split; [reflexivity|]. split; [exact Hy|].
  apply (publication_save_overwrites_url example_loads ascii_int empty_form false
           (stored_publication text_2021) (world_of ∅) entry_2021 []).
  - reflexivity.
  - right. right. exact Hy.
Defined.

(** Counterexample to C10 as stated.  The text parses to two entries; the
    second has a numeric year and a url, so the text has an entry whose
    year is numeric, but the first entry's year is "in press": the save
    returns normally and the stored url is still the old one, neither the
    second entry's url nor the first entry's (the empty string). *)
Lemma publication_save_keeps_url :
  example_loads_two (getattr (stored_publication text_two_entries) "bibtex")
    = Ok [entry_in_press; entry_2021_url]
  /\ (exists y n, entry_2021_url !! "year" = Some y /\ ascii_int y = Ok n)
  /\ entry_2021_url !! "url" = Some "https://example.org/kim2021"
  /\ entry_in_press !! "url" = None
  /\ exists pub' w',
       PublicationModelView_on_model_change example_loads_two ascii_int empty_form false
         (stored_publication text_two_entries, world_of ∅) = (Ok tt, (pub', w'))
       /\ getattr (stored_publication text_two_entries) "url" = getattr pub' "url"
       /\ getattr pub' "url" <> VStr "https://example.org/kim2021"
       /\ getattr pub' "url" <> VStr EmptyString.
Proof.
  split; [vm_compute; reflexivity|].
  split; [exists "2021", 2021; split; reflexivity|].
  split; [reflexivity|]. split; [reflexivity|].
  exists (assign_title_authors_venue entry_in_press (stored_publication text_two_entries)),
         (set_stdout
            ["Error parsing BibTeX: invalid literal for int() with base 10: 'in press'"]
            (world_of ∅)).
  split; [vm_compute; reflexivity|]. split; [vm_compute; reflexivity|].
  split; vm_compute; discriminate.
Qed.

(** ** Access control and login *)

Section Login.

Variable check_password_hash : string -> string -> bool.

Lemma missing_false (s : string) : s <> EmptyString -> missing (Some s) = false.
Proof.
  intros Hs. unfold missing. simpl. apply String.eqb_neq in Hs. by rewrite Hs.
Qed.

(** A rejected attempt answers with the login page and one flashed
    message, whatever the reason. *)
Lemma admin_login_failed cause req w :
  failed_attempt check_password_hash cause req w ->
  admin_login check_password_hash req w
  = (Ok (render_template "admin_login.html" []),
     set_flashes (flashes w ++ [invalid_credentials]) w).
Proof.
  intros (Hanon & Hpost & u & p & Hu & Hune & Hp & Hpne & Hcause).
  unfold admin_login, bind, get. simpl. rewrite Hanon, Hpost. simpl.
  unfold admin_login_post. rewrite Hu, Hp.
  rewrite (missing_false u Hune), (missing_false p Hpne). simpl.
  unfold bind, query, get, ret. simpl.
  destruct cause.
  - rewrite Hcause. reflexivity.
  - destruct Hcause as (user & -> & Hcheck). simpl.
    unfold lift_result. rewrite Hcheck. reflexivity.
Qed.

(** C7.  Two rejected login attempts, one for an unknown username and one
    for a wrong password, get the same response and the same flashed
    message. *)
Theorem admin_login_failure_indistinguishable req1 w1 req2 w2 :
  failed_attempt check_password_hash UnknownUser req1 w1 ->
  failed_attempt check_password_hash WrongPassword req2 w2 ->
  exists resp message,
    admin_login check_password_hash req1 w1
      = (Ok resp, set_flashes (flashes w1 ++ [message]) w1)
    /\ admin_login check_password_hash req2 w2
       = (Ok resp, set_flashes (flashes w2 ++ [message]) w2)
    /\ resp = render_template "admin_login.html" []
    /\ message = invalid_credentials.
Proof.
  intros H1 H2. exists (render_template "admin_login.html" []), invalid_credentials.
  rewrite (admin_login_failed _ _ _ H1), (admin_login_failed _ _ _ H2). done.
Qed.

End Login.

(** An unknown user and a wrong password against the same store. *)
Lemma admin_login_failure_indistinguishable_witness :
  failed_attempt plain_check UnknownUser (login_request "nobody" "changeme123") admin_world
  /\ failed_attempt plain_check WrongPassword (login_request "admin" "guess") admin_world
  /\ exists resp message,
       admin_login plain_check (login_request "nobody" "changeme123") admin_world
         = (Ok resp, set_flashes (flashes admin_world ++ [message]) admin_world)
       /\ admin_login plain_check (login_request "admin" "guess") admin_world
          = (Ok resp, set_flashes (flashes admin_world ++ [message]) admin_world)
       /\ resp = render_template "admin_login.html" []
       /\ message = invalid_credentials.
Proof.
  assert (H1 : failed_attempt plain_check UnknownUser
                 (login_request "nobody" "changeme123") admin_world).
  { split; [reflexivity|]. split; [reflexivity|].
    exists "nobody", "changeme123". repeat split; try reflexivity; discriminate. }
  assert (H2 : failed_attempt plain_check WrongPassword
                 (login_request "admin" "guess") admin_world).
  { split; [reflexivity|]. split; [reflexivity|].
    exists "admin", "guess". repeat split; try reflexivity; try discriminate.
    exists registered_admin. split; reflexivity. }
  split; [exact H1|]. split; [exact H2|].
  exact (admin_login_failure_indistinguishable plain_check _ _ _ _ H1 H2).
Defined.

(** C8.  A request that carries no authenticated identity and reaches the
    admin index or a CRUD view is answered by a redirect to the login
    endpoint with the requested URL as [next]; the view function does not
    run and nothing changes. *)
Theorem admin_views_redirect_anonymous loads int (v : view) name
    (fn : request -> M world response) req w :
  v ∈ admin_views loads int ->
  current_user w = None ->
  run_view v name fn req w
  = (Ok (redirect (url_for "admin_login" [("next", req_url req)])), w).
Proof.
  intros Hv Hanon. unfold admin_views in Hv.
  repeat (apply elem_of_cons in Hv as [->|Hv]);
    try (unfold run_view, handle_view, bind, get, ret; simpl;
         unfold AuthenticatedModelView_is_accessible, bind, get, ret; simpl;
         rewrite Hanon; reflexivity).
  by apply elem_of_nil in Hv.
Qed.

(** The admin index asked for without a session. *)
Lemma admin_views_redirect_anonymous_witness :
  MyAdminIndexView ∈ admin_views example_loads ascii_int
  /\ current_user admin_world = None
  /\ run_view MyAdminIndexView "index" MyAdminIndexView_index admin_page_request admin_world
     = (Ok (redirect (url_for "admin_login"
                        [("next", "http://localhost:5000/admin/")])),
        admin_world).
Proof.
  assert (Hv : MyAdminIndexView ∈ admin_views example_loads ascii_int).
  { unfold admin_views. left. }
  split; [exact Hv|]. split; [reflexivity|].
  exact (admin_views_redirect_anonymous example_loads ascii_int MyAdminIndexView
           "index" MyAdminIndexView_index admin_page_request admin_world Hv eq_refl).
Defined.

(** ** Passwords *)

Section Passwords.

Variable generate_password_hash : string -> string -> string.
Variable check_password_hash : string -> string -> bool.



(** werkzeug's guarantee that a hash verifies the password it was
    generated from. *)
Hypothesis hash_accepts :
  forall salt p, check_password_hash (generate_password_hash salt p) p = true.


End Passwords.



(** ** Upload clean-up *)

(** The hook, case by case. *)
Lemma professor_hook_run (f : form) (is_created : bool) (model : row) (w : world) :
  on_model_change ProfessorModelView f is_created (model, w) =
  match negb is_created, f !! "photo" with
  | true, Some photo_data =>
      if truthy (getattr model "photo") && py_ne (getattr model "photo") photo_data then
        match os_path_join professor_upload_dir (getattr model "photo") with
        | Ok old_path =>
            match fs w !! old_path with
            | Some File => (Ok tt, (model, set_fs (delete old_path (fs w)) w))
            | Some Dir => (Raise (OSError ("Is a directory: " +:+ old_path)), (model, w))
            | None => (Ok tt, (model, w))
            end
        | Raise e => (Raise e, (model, w))
        end
      else (Ok tt, (model, w))
  | _, _ => (Ok tt, (model, w))
  end.
Proof.
  simpl. unfold ProfessorModelView_on_model_change.
  destruct (negb is_created); [|reflexivity].
  destruct (f !! "photo") as [photo_data|]; [|reflexivity].
  unfold bind at 1. unfold bind at 1. unfold self_getattr at 1. simpl.
  destruct (truthy (getattr model "photo") && py_ne (getattr model "photo") photo_data);
    [|reflexivity].
  unfold bind at 1. unfold lift_result at 1.
  change "static/uploads/professor" with professor_upload_dir.
  destruct (os_path_join professor_upload_dir (getattr model "photo")) as [old_path|e];
    [|reflexivity].
  unfold bind at 1. unfold in_world at 1, os_path_exists, bind, get, ret. simpl.
  destruct (fs w !! old_path) as [[|]|] eqn:Hfile.
  - rewrite bool_decide_eq_true_2 by eauto.
    unfold in_world, os_remove, bind, get. simpl. rewrite Hfile. reflexivity.
  - rewrite bool_decide_eq_true_2 by eauto.
    unfold in_world, os_remove, bind, get. simpl. rewrite Hfile. reflexivity.
  - rewrite bool_decide_eq_false_2 by (intros [? ?]; discriminate). reflexivity.
Qed.





Lemma plain_name_relative (s : string) : plain_name s -> startswith "/"%char s = false.
Proof.
  intros (Hne & Hslash & _). destruct s as [|a rest]; [done|]. simpl.
  apply Ascii.eqb_neq. intros ->. apply Hslash. simpl. left.
Qed.

(** The path of a plain name under an upload directory. *)
Lemma upload_path (base s : string) :
  String.eqb base EmptyString || endswith "/"%char base = false ->
  plain_name s ->
  os_path_join base (VStr s) = Ok (base +:+ "/" +:+ s).
Proof.
  intros Hbase Hs. unfold os_path_join.
  by rewrite (plain_name_relative s Hs), Hbase.
Qed.






Section Update.

Variable stored_filename : string -> string.
Variable thumbnail_fn : string -> string.









End Update.

Ltac solve_plain_name :=
  unfold plain_name; simpl; repeat split; try discriminate;
  let H := fresh in
  intros H; repeat (apply elem_of_cons in H as [H|H]; [discriminate H|]);
  by apply elem_of_nil in H.



(** ** Bootstrap *)

(** C1 (code defect).  On a first run, with every table empty,
    [create_default_data] raises when it constructs the lab information,
    because [focus_statement] is not an attribute of [LabInfo].  The
    commit is not reached: the database stays empty, and only the admin
    and professor lines have been printed. *)
Theorem create_default_data_first_run generate_password_hash salt console now files :
  exists w',
    create_default_data generate_password_hash salt (first_run console now files)
      = (Raise (TypeError "'focus_statement' is an invalid keyword argument for LabInfo"), w')
    /\ db w' = ∅
    /\ (forall cls, table cls (db w') = [])
    /\ stdout w'
       = (console ++
          [ "Created default admin user - username: admin, password: changeme123";
            "Created default professor profile" ])%list.
Proof.
  set (run := create_default_data generate_password_hash salt (first_run console now files)).
  assert (H1 : run.1 = Raise (TypeError "'focus_statement' is an invalid keyword argument for LabInfo"))
    by (vm_compute; reflexivity).
  assert (H2 : db run.2 = ∅) by (vm_compute; reflexivity).
  assert (H3 : stdout run.2
               = ((console ++ ["Created default admin user - username: admin, password: changeme123"])
                  ++ ["Created default professor profile"])%list)
    by (vm_compute; reflexivity).
  exists run.2. destruct run as [r w']. simpl in H1, H2, H3 |- *. subst r.
  split; [reflexivity|]. split; [exact H2|]. split.
  - intros cls. unfold table. by rewrite H2, lookup_empty.
  - rewrite H3. by rewrite <- app_assoc.
Qed.

(** The same bootstrap commits its records when the lab information is
    already stored, so the constructor call is skipped. *)
Example create_default_data_lab_info_present :
  exists w',
    create_default_data plain_hash "salt" lab_info_only = (Ok tt, w')
    /\ length (table AdminUser (db w')) = 1%nat
    /\ length (table Professor (db w')) = 1%nat
    /\ length (table LabInfo (db w')) = 1%nat
    /\ length (table Student (db w')) = 1%nat
    /\ length (table Project (db w')) = 1%nat
    /\ session_new w' = [].
Proof.
  set (run := create_default_data plain_hash "salt" lab_info_only).
  assert (H : run.1 = Ok tt) by (vm_compute; reflexivity).
  exists run.2. split; [|repeat split; vm_compute; reflexivity].
  destruct run as [r w']. simpl in H |- *. by subst r.
Qed.

(** * Further properties of the routes, the hooks and the bootstrap *)

(** ** The login route, case by case *)

Section LoginRoute.

Variable check_password_hash : string -> string -> bool.

Lemma missing_true_iff (o : option string) :
  missing o = true <-> o = None \/ o = Some EmptyString.
Proof.
  unfold missing. destruct o as [s|]; simpl.
  - rewrite negb_true_iff, negb_false_iff, String.eqb_eq. split.
    + intros ->. by right.
    + intros [?|[= ->]]; [discriminate|done].
  - split; auto.
Qed.

(** X1.  A request that already carries an authenticated user is sent to
    the admin index whatever its method and form hold: no credential is
    looked at, nothing is flashed and nothing changes. *)
Theorem admin_login_already_authenticated req w user :
  current_user w = Some user ->
  admin_login check_password_hash req w
  = (Ok (redirect (url_for "admin.index" [])), w).
Proof.
  intros Hu. unfold admin_login, bind, get. simpl. rewrite Hu. reflexivity.
Qed.

(** X2.  An anonymous POST whose username or password is absent or empty
    is answered with the login page and the "enter both" message; the
    user table is not consulted and no session is established, even when
    the stored hash would verify the empty password. *)
Theorem admin_login_missing_field req w :
  current_user w = None ->
  req_method req = "POST" ->
  (req_form req !! "username" = None \/ req_form req !! "username" = Some EmptyString
   \/ req_form req !! "password" = None \/ req_form req !! "password" = Some EmptyString) ->
  admin_login check_password_hash req w
  = (Ok (render_template "admin_login.html" []),
     set_flashes (flashes w ++ [("error", "Please enter both username and password.")]) w).
Proof.
  intros Hanon Hm Hmiss. unfold admin_login, bind, get. simpl. rewrite Hanon, Hm. simpl.
  unfold admin_login_post.
  assert (missing (req_form req !! "username") || missing (req_form req !! "password") = true)
    as ->.
  { apply orb_true_iff. rewrite !missing_true_iff. tauto. }
  reflexivity.
Qed.

(** The accepting path of the route. *)
Lemma admin_login_accepted req w username password user :
  current_user w = None ->
  req_method req = "POST" ->
  req_form req !! "username" = Some username -> username <> EmptyString ->
  req_form req !! "password" = Some password -> password <> EmptyString ->
  first (filter_by [("username", VStr username)] (table AdminUser (db w))) = Some user ->
  check_password check_password_hash user password = Ok true ->
  admin_login check_password_hash req w
  = (Ok (redirect (match req_args req !! "next" with
                   | Some next_page =>
                       if String.eqb next_page EmptyString
                       then url_for "admin.index" [] else Url next_page
                   | None => url_for "admin.index" []
                   end)),
     set_flashes
       (flashes w ++ [("success", "Welcome back, " +:+ str (getattr user "name") +:+ "!")])
       (set_login_session (int_of (getattr user "id")) w)).
Proof.
  intros Hanon Hm Hu Hune Hp Hpne Huser Hcheck.
  unfold admin_login, bind, get. simpl. rewrite Hanon, Hm. simpl.
  unfold admin_login_post. rewrite Hu, Hp.
  rewrite (missing_false username Hune), (missing_false password Hpne). simpl.
  unfold bind, query, get, ret. simpl. rewrite Huser. simpl.
  unfold lift_result. rewrite Hcheck. simpl.
  destruct (req_args req !! "next") as [n|]; [|reflexivity].
  simpl. destruct (String.eqb n EmptyString); reflexivity.
Qed.

(** X3.  An anonymous POST of a non-empty username and password whose
    user is found and whose password verifies keeps that user's id in the
    session, flashes the welcome with the user's name and redirects to the
    [next] argument exactly as given when it is not empty, to the admin
    index otherwise. *)
Theorem admin_login_success req w username password user :
  current_user w = None ->
  req_method req = "POST" ->
  req_form req !! "username" = Some username -> username <> EmptyString ->
  req_form req !! "password" = Some password -> password <> EmptyString ->
  first (filter_by [("username", VStr username)] (table AdminUser (db w))) = Some user ->
  check_password check_password_hash user password = Ok true ->
  admin_login check_password_hash req w
  = (Ok (redirect (match req_args req !! "next" with
                   | Some next_page =>
                       if String.eqb next_page EmptyString
                       then url_for "admin.index" [] else Url next_page
                   | None => url_for "admin.index" []
                   end)),
     set_flashes
       (flashes w ++ [("success", "Welcome back, " +:+ str (getattr user "name") +:+ "!")])
       (set_login_session (int_of (getattr user "id")) w)).
Proof. apply admin_login_accepted. Qed.

(** X4.  Whatever the request and the store, [admin_login] leaves the
    database, the pending session objects, the files and the console as
    they are; and when the session identifier differs afterwards, a
    stored administrator with the posted username exists whose hash
    verified the posted password, and the identifier is that
    administrator's id. *)
Theorem admin_login_session_only_if_verified req w r w' :
  admin_login check_password_hash req w = (r, w') ->
  db w' = db w /\ session_new w' = session_new w
  /\ fs w' = fs w /\ stdout w' = stdout w
  /\ (login_session w' <> login_session w ->
      exists username password user,
        req_form req !! "username" = Some username
        /\ req_form req !! "password" = Some password
        /\ user ∈ table AdminUser (db w)
        /\ getattr user "username" = VStr username
        /\ check_password check_password_hash user password = Ok true
        /\ login_session w' = int_of (getattr user "id")).
Proof.
  unfold admin_login, bind, get. simpl.
  destruct (is_authenticated (current_user w)).
  { intros [= <- <-]. repeat split; try done. }
  destruct (String.eqb (req_method req) "POST"); simpl.
  2:{ intros [= <- <-]. repeat split; try done. }
  unfold admin_login_post.
  destruct (req_form req !! "username") as [username|] eqn:Hu;
    [|simpl; intros [= <- <-]; repeat split; try done].
  destruct (req_form req !! "password") as [password|] eqn:Hp;
    [|rewrite orb_true_r; simpl; intros [= <- <-]; repeat split; try done].
  destruct (missing (Some username) || missing (Some password));
    [simpl; intros [= <- <-]; repeat split; try done|].
  unfold bind, query, get, ret. simpl.
  destruct (first (filter_by [("username", VStr username)] (table AdminUser (db w))))
    as [user|] eqn:Huser; simpl.
  2:{ intros [= <- <-]. repeat split; try done. }
  unfold lift_result.
  destruct (check_password check_password_hash user password) as [[|]|e] eqn:Hcheck; simpl.
  - intros [= <- <-]. repeat split; try done.
    intros _. exists username, password, user.
    apply head_Some_elem_of in Huser.
    apply elem_of_filter_by in Huser as [Hf Hin].
    apply Forall_cons in Hf as [[Hname _] _].
    repeat split; done.
  - intros [= <- <-]. repeat split; try done.
  - intros [= <- <-]. repeat split; try done.
Qed.

End LoginRoute.

(** ** Sessions and admin access *)

Section AdminAccess.

Variable loads : value -> result (list (gmap string string)).
Variable int : string -> result Z.
Variable check_password_hash : string -> string -> bool.

Lemma run_view_authenticated (v : view) name fn req w user :
  v ∈ admin_views loads int ->
  current_user w = Some user ->
  run_view v name fn req w = fn req w.
Proof.
  intros Hv Hu. unfold admin_views in Hv.
  repeat (apply elem_of_cons in Hv as [->|Hv]);
    try (unfold run_view, handle_view, bind, get, ret; simpl;
         unfold AuthenticatedModelView_is_accessible, bind, get, ret; simpl;
         rewrite Hu; simpl; by destruct (fn req w) as [[?|?] ?]).
  by apply elem_of_nil in Hv.
Qed.

Lemma run_view_anonymous (v : view) name fn req w :
  v ∈ admin_views loads int ->
  current_user w = None ->
  run_view v name fn req w
  = (Ok (redirect (url_for "admin_login" [("next", req_url req)])), w).
Proof.
  intros Hv Hanon. unfold admin_views in Hv.
  repeat (apply elem_of_cons in Hv as [->|Hv]);
    try (unfold run_view, handle_view, bind, get, ret; simpl;
         unfold AuthenticatedModelView_is_accessible, bind, get, ret; simpl;
         rewrite Hanon; reflexivity).
  by apply elem_of_nil in Hv.
Qed.

Lemma current_user_set_flashes l w : current_user (set_flashes l w) = current_user w.
Proof. reflexivity. Qed.

(** X5.  Login composes with the admin gate: after a successful login of
    a stored administrator whose id is an integer, every admin view runs
    its view function on the next request instead of redirecting. *)
Theorem login_then_admin_access req w username password user n
    (v : view) name fn req' :
  current_user w = None ->
  req_method req = "POST" ->
  req_form req !! "username" = Some username -> username <> EmptyString ->
  req_form req !! "password" = Some password -> password <> EmptyString ->
  first (filter_by [("username", VStr username)] (table AdminUser (db w))) = Some user ->
  check_password check_password_hash user password = Ok true ->
  getattr user "id" = VInt n ->
  v ∈ admin_views loads int ->
  exists resp w',
    admin_login check_password_hash req w = (Ok resp, w')
    /\ is_authenticated (current_user w') = true
    /\ run_view v name fn req' w' = fn req' w'.
Proof.
  intros Hanon Hm Hu Hune Hp Hpne Huser Hcheck Hid Hv.
  rewrite (admin_login_accepted check_password_hash req w username password user)
    by assumption.
  do 2 eexists. split; [reflexivity|].
  rewrite current_user_set_flashes.
  assert (Hsome : is_Some (current_user
                     (set_login_session (int_of (getattr user "id")) w))).
  { unfold current_user. simpl. rewrite Hid. simpl. unfold load_user.
    apply head_Some_elem_of in Huser.
    apply elem_of_filter_by in Huser as [_ Hin].
    assert (Hf : user ∈ filter_by [("id", VInt n)] (table AdminUser (db w))).
    { apply elem_of_filter_by. split; [|done]. by repeat constructor. }
    unfold first. destruct (filter_by [("id", VInt n)] (table AdminUser (db w))).
    - by apply elem_of_nil in Hf.
    - by eexists. }
  split.
  - unfold is_authenticated. by apply bool_decide_eq_true.
  - destruct Hsome as [u' Hu']. by eapply run_view_authenticated.
Qed.

(** X6.  [admin_logout] for an authenticated user clears the session,
    flashes the goodbye with the user's name and redirects to the login
    page; from then on the user is anonymous and every admin view
    redirects to the login page. *)
Theorem admin_logout_then_anonymous unauthorized req w user
    (v : view) name fn req' :
  current_user w = Some user ->
  v ∈ admin_views loads int ->
  exists w',
    admin_logout unauthorized req w = (Ok (redirect (url_for "admin_login" [])), w')
    /\ login_session w' = None
    /\ flashes w'
       = (flashes w ++
          [("info", "Goodbye, " +:+ str (getattr user "name")
                      +:+ "! You have been logged out successfully.")])%list
    /\ db w' = db w
    /\ current_user w' = None
    /\ run_view v name fn req' w'
       = (Ok (redirect (url_for "admin_login" [("next", req_url req')])), w').
Proof.
  intros Hu Hv.
  unfold admin_logout, login_required, admin_logout_body, bind, get. simpl.
  rewrite Hu. simpl. unfold logout_user, flash, modify, ret. simpl.
  rewrite Hu. simpl.
  eexists. split; [reflexivity|].
  split; [reflexivity|]. split; [reflexivity|]. split; [reflexivity|].
  split; [reflexivity|].
  by apply run_view_anonymous.
Qed.

(** X7.  A session identifier that no stored administrator carries (the
    row was deleted after the login) counts as anonymous: every admin
    view redirects to the login page. *)
Theorem stale_session_is_anonymous w n (v : view) name fn req :
  login_session w = Some n ->
  (forall user, user ∈ table AdminUser (db w) -> getattr user "id" <> VInt n) ->
  v ∈ admin_views loads int ->
  current_user w = None
  /\ run_view v name fn req w
     = (Ok (redirect (url_for "admin_login" [("next", req_url req)])), w).
Proof.
  intros Hs Hnone Hv.
  assert (Hanon : current_user w = None).
  { unfold current_user. rewrite Hs. simpl. unfold load_user, first.
    destruct (filter_by [("id", VInt n)] (table AdminUser (db w))) as [|u l] eqn:Hf;
      [done|].
    assert (Hin : u ∈ filter_by [("id", VInt n)] (table AdminUser (db w)))
      by (rewrite Hf; left).
    apply elem_of_filter_by in Hin as [Hid Hin].
    apply Forall_cons in Hid as [[Hid _] _]. by destruct (Hnone u Hin). }
  split; [done|]. by apply run_view_anonymous.
Qed.

End AdminAccess.

(** ** Instances *)

(** A second login POST by a logged-in administrator. *)
Lemma admin_login_already_authenticated_witness :
  current_user logged_in_world = Some registered_admin
  /\ admin_login plain_check (login_request "someone" "else") logged_in_world
     = (Ok (redirect (url_for "admin.index" [])), logged_in_world).
Proof.
  split; [reflexivity|].
  apply (admin_login_already_authenticated plain_check (login_request "someone" "else")
           logged_in_world registered_admin).
  reflexivity.
Defined.

(** A POST with an empty password. *)
Lemma admin_login_missing_field_witness :
  current_user admin_world = None
  /\ req_form (login_request "admin" EmptyString) !! "password" = Some EmptyString
  /\ admin_login plain_check (login_request "admin" EmptyString) admin_world
     = (Ok (render_template "admin_login.html" []),
        set_flashes (flashes admin_world
                     ++ [("error", "Please enter both username and password.")])
                    admin_world).
Proof.
  split; [reflexivity|]. split; [reflexivity|].
  apply (admin_login_missing_field plain_check (login_request "admin" EmptyString) admin_world).
  - reflexivity.
  - reflexivity.
  - do 3 right. reflexivity.
Defined.

(** The registered administrator logs in and is sent to the page asked
    for. *)
Lemma admin_login_success_witness :
  first (filter_by [("username", VStr "admin")] (table AdminUser (db admin_world)))
    = Some registered_admin
  /\ check_password plain_check registered_admin "changeme123" = Ok true
  /\ admin_login plain_check
       (login_request_next "admin" "changeme123" "/admin/student/") admin_world
     = (Ok (redirect (Url "/admin/student/")),
        set_flashes (flashes admin_world
                     ++ [("success", "Welcome back, "
                                     +:+ str (getattr registered_admin "name") +:+ "!")])
          (set_login_session (int_of (getattr registered_admin "id")) admin_world)).
Proof.
  split; [reflexivity|]. split; [reflexivity|].
  apply (admin_login_success plain_check
           (login_request_next "admin" "changeme123" "/admin/student/") admin_world
           "admin" "changeme123" registered_admin).
  - reflexivity.
  - reflexivity.
  - reflexivity.
  - discriminate.
  - reflexivity.
  - discriminate.
  - reflexivity.
  - reflexivity.
Defined.

(** A rejected attempt changes nothing but the flashed messages. *)
Lemma admin_login_session_only_if_verified_witness :
  admin_login plain_check (login_request "admin" "guess") admin_world
    = (Ok (render_template "admin_login.html" []),
       set_flashes [invalid_credentials] admin_world)
  /\ db (set_flashes [invalid_credentials] admin_world) = db admin_world
  /\ login_session (set_flashes [invalid_credentials] admin_world)
     = login_session admin_world.
Proof.
  assert (H : admin_login plain_check (login_request "admin" "guess") admin_world
              = (Ok (render_template "admin_login.html" []),
                 set_flashes [invalid_credentials] admin_world))
    by (vm_compute; reflexivity).
  split; [exact H|].
  destruct (admin_login_session_only_if_verified plain_check
              (login_request "admin" "guess") admin_world _ _ H) as (Hdb & _).
  split; [exact Hdb | reflexivity].
Defined.

(** After the login the student list is served. *)
Lemma login_then_admin_access_witness :
  exists resp w',
    admin_login plain_check (login_request "admin" "changeme123") admin_world
      = (Ok resp, w')
    /\ is_authenticated (current_user w') = true
    /\ run_view StudentModelView "index_view" MyAdminIndexView_index admin_page_request w'
       = MyAdminIndexView_index admin_page_request w'.
Proof.
  apply (login_then_admin_access example_loads ascii_int plain_check
           (login_request "admin" "changeme123") admin_world
           "admin" "changeme123" registered_admin 1).
  - reflexivity.
  - reflexivity.
  - reflexivity.
  - discriminate.
  - reflexivity.
  - discriminate.
  - reflexivity.
  - reflexivity.
  - reflexivity.
  - unfold admin_views. do 2 right. left.
Defined.

(** The logged-in administrator logs out. *)
Lemma admin_logout_then_anonymous_witness :
  current_user logged_in_world = Some registered_admin
  /\ exists w',
       admin_logout example_unauthorized admin_page_request logged_in_world
         = (Ok (redirect (url_for "admin_login" [])), w')
       /\ login_session w' = None
       /\ flashes w'
          = (flashes logged_in_world ++
             [("info", "Goodbye, " +:+ str (getattr registered_admin "name")
                         +:+ "! You have been logged out successfully.")])%list
       /\ db w' = db logged_in_world
       /\ current_user w' = None
       /\ run_view MyAdminIndexView "index" MyAdminIndexView_index admin_page_request w'
          = (Ok (redirect (url_for "admin_login"
                             [("next", req_url admin_page_request)])), w').
Proof.
  split; [reflexivity|].
  apply (admin_logout_then_anonymous example_loads ascii_int example_unauthorized
           admin_page_request logged_in_world registered_admin MyAdminIndexView).
  - reflexivity.
  - unfold admin_views. left.
Defined.

(** Session id 7 with only administrator 1 stored. *)
Lemma stale_session_is_anonymous_witness :
  login_session stale_world = Some 7
  /\ current_user stale_world = None
  /\ run_view MyAdminIndexView "index" MyAdminIndexView_index admin_page_request stale_world
     = (Ok (redirect (url_for "admin_login" [("next", req_url admin_page_request)])),
        stale_world).
Proof.
  split; [reflexivity|].
  apply (stale_session_is_anonymous example_loads ascii_int stale_world 7 MyAdminIndexView).
  - reflexivity.
  - intros user Hin. change (table AdminUser (db stale_world)) with [registered_admin] in Hin.
    apply list_elem_of_singleton in Hin. subst user. discriminate.
  - unfold admin_views. left.
Defined.

(** ** The public pages and the dashboard *)

Lemma filter_by_one k v rows (r : row) :
  r ∈ filter_by [(k, v)] rows <-> (getattr r k = v /\ v <> VNone) /\ r ∈ rows.
Proof.
  rewrite elem_of_filter_by. split.
  - intros [H ?]. apply Forall_cons in H as [? _]. done.
  - intros [? ?]. split; [|done]. constructor; [done|constructor].
Qed.

Lemma filter_by_one_iff k v (r : row) :
  v <> VNone ->
  (forallb (fun kv : string * value => sql_eq (getattr r kv.1) kv.2) [(k, v)] = true)
  <-> getattr r k = v.
Proof.
  intros ?. simpl. rewrite andb_true_iff, sql_eq_true. split.
  - intros [[? _] _]. done.
  - intros ->. done.
Qed.

Lemma length_filter_impl {A} (P Q : A -> Prop)
    `{!forall x, Decision (P x)} `{!forall x, Decision (Q x)} (l : list A) :
  (forall x, P x -> Q x) -> (length (filter P l) <= length (filter Q l))%nat.
Proof.
  intros Himp. induction l as [|x l IH]; [done|].
  rewrite !filter_cons.
  destruct (decide (P x)) as [HP|HP].
  - rewrite decide_True by auto. simpl. lia.
  - destruct (decide (Q x)); simpl; lia.
Qed.

(** X8.  For every database state [home] changes nothing and splits the
    projects by status: a project is in [ongoing_projects] exactly when
    it is stored with status Ongoing, in [completed_projects] exactly when
    stored with status Completed, never in both, and a project with any
    other status or none is in neither list. *)
Theorem home_project_groups (w : world) :
  exists resp,
    home w = (Ok resp, w)
    /\ (forall p, p ∈ context_list "ongoing_projects" resp
                  <-> p ∈ table Project (db w) /\ getattr p "status" = VStr "Ongoing")
    /\ (forall p, p ∈ context_list "completed_projects" resp
                  <-> p ∈ table Project (db w) /\ getattr p "status" = VStr "Completed")
    /\ (forall p, p ∈ context_list "ongoing_projects" resp ->
                  p ∉ context_list "completed_projects" resp)
    /\ context_list "ongoing_projects" resp ++ context_list "completed_projects" resp
         ≡ₚ filter has_status (table Project (db w)).
Proof.
  eexists. split; [cbv [home query bind get ret]; reflexivity|].
  change (context_list "ongoing_projects" _)
    with (filter_by [("status", VStr "Ongoing")] (table Project (db w))).
  change (context_list "completed_projects" _)
    with (filter_by [("status", VStr "Completed")] (table Project (db w))).
  split; [|split; [|split]].
  - intros p. rewrite filter_by_one. split.
    + intros [[? _] ?]. done.
    + intros [? ?]. done.
  - intros p. rewrite filter_by_one. split.
    + intros [[? _] ?]. done.
    + intros [? ?]. done.
  - intros p [[H1 _] _]%filter_by_one [[H2 _] _]%filter_by_one. congruence.
  - unfold filter_by.
    rewrite (filter_app_disjoint _ _ (table Project (db w))).
    2:{ intros x H1%filter_by_one_iff H2%filter_by_one_iff; congruence. }
    erewrite list_filter_iff; [reflexivity|].
    intros x. rewrite !filter_by_one_iff by done. unfold has_status. tauto.
Qed.

(** X9.  On a store without any row [home] still renders the page: no lab
    information, no professor and seven empty lists. *)
Theorem home_empty_store (w : world) :
  db w = ∅ ->
  exists resp,
    home w = (Ok resp, w)
    /\ context_object "lab_info" resp = None
    /\ context_object "professor" resp = None
    /\ Forall (fun name => context_list name resp = [])
         ["current_phd"; "current_masters"; "former_phd"; "former_masters";
          "ongoing_projects"; "completed_projects"; "featured_publications"].
Proof.
  intros Hdb. eexists. split; [cbv [home query bind get ret]; reflexivity|].
  rewrite Hdb. split; [reflexivity|]. split; [reflexivity|].
  repeat constructor.
Qed.

(** X10.  The dashboard changes nothing, and its counts are consistent
    with each other and with the public page: the current students are at
    most the total, the active projects at most the total, and the two
    current lists of [home] together hold at most the dashboard's number
    of current students. *)
Theorem dashboard_counts req (w : world) :
  exists resp home_resp,
    MyAdminIndexView_index req w = (Ok resp, w)
    /\ home w = (Ok home_resp, w)
    /\ context_number "total_students" resp = length (table Student (db w))
    /\ (context_number "current_students" resp <= context_number "total_students" resp)%nat
    /\ (context_number "active_projects" resp <= context_number "total_projects" resp)%nat
    /\ context_number "active_projects" resp
       = length (context_list "ongoing_projects" home_resp)
    /\ (length (context_list "current_phd" home_resp)
        + length (context_list "current_masters" home_resp)
        <= context_number "current_students" resp)%nat.
Proof.
  do 2 eexists.
  split; [cbv [MyAdminIndexView_index query bind get ret]; reflexivity|].
  split; [cbv [home query bind get ret]; reflexivity|].
  change (context_number "total_students" _) with (length (table Student (db w))).
  change (context_number "current_students" _)
    with (length (filter_by [("is_current", VBool true)] (table Student (db w)))).
  change (context_number "active_projects" _)
    with (length (filter_by [("status", VStr "Ongoing")] (table Project (db w)))).
  change (context_number "total_projects" _) with (length (table Project (db w))).
  change (context_list "ongoing_projects" _)
    with (filter_by [("status", VStr "Ongoing")] (table Project (db w))).
  change (context_list "current_phd" _)
    with (filter_by [("is_current", VBool true); ("degree_type", VStr "PhD")]
            (table Student (db w))).
  change (context_list "current_masters" _)
    with (filter_by [("is_current", VBool true); ("degree_type", VStr "Masters")]
            (table Student (db w))).
  split; [reflexivity|]. unfold filter_by.
  split; [apply length_filter|]. split; [apply length_filter|]. split; [reflexivity|].
  rewrite <- length_app.
  rewrite (filter_app_disjoint _ _ (table Student (db w))).
  2:{ intros x [H1 H2]%filter_by_two_iff [H3 H4]%filter_by_two_iff; congruence. }
  apply length_filter_impl.
  intros x. rewrite !filter_by_two_iff, filter_by_one_iff by done. tauto.
Qed.


(** X12.  [project_detail] for a stored project changes nothing and hands
    the template that project and, in the order 2, 3, 4, exactly its
    second to fourth images that are set and not empty: at most three,
    none of them empty or [None]; the first image is not consulted. *)
Theorem project_detail_images project_id (w : world) project :
  first (filter_by [("id", VInt project_id)] (table Project (db w))) = Some project ->
  exists images,
    project_detail project_id w = (Ok (ProjectPage project images), w)
    /\ images
       = List.filter truthy
           [getattr project "image2"; getattr project "image3"; getattr project "image4"]
    /\ (length images <= 3)%nat
    /\ Forall (fun v => truthy v = true) images
    /\ (forall v, v ∈ images <->
                  truthy v = true
                  /\ (v = getattr project "image2" \/ v = getattr project "image3"
                      \/ v = getattr project "image4"))
    /\ (getattr project "image2" = VNone -> getattr project "image3" = VNone ->
        getattr project "image4" = VNone -> images = []).
Proof.
  intros Hp.
  exists (List.filter truthy
            [getattr project "image2"; getattr project "image3"; getattr project "image4"]).
  split.
  { unfold project_detail, get_or_404, bind, query, get, ret. simpl. rewrite Hp.
    reflexivity. }
  split; [reflexivity|].
  set (l := [getattr project "image2"; getattr project "image3"; getattr project "image4"]).
  split; [|split; [|split]].
  - exact (List.filter_length_le truthy l).
  - apply Forall_forall. intros v Hv. apply list_elem_of_In in Hv.
    apply List.filter_In in Hv. tauto.
  - intros v. rewrite list_elem_of_In, List.filter_In, <- list_elem_of_In.
    subst l. rewrite !elem_of_cons, elem_of_nil. tauto.
  - intros H2 H3 H4. subst l. rewrite H2, H3, H4. reflexivity.
Qed.

(** ** More on the featured publications *)

(** X13.  The featured list of [home] is a best-five selection: when at
    most five publications are featured it holds all of them, and in any
    case no featured publication left out has a later year than one that
    is shown (a publication without a year counting as earliest). *)
Theorem home_featured_selection (w : world) :
  exists resp omitted,
    home w = (Ok resp, w)
    /\ context_list "featured_publications" resp ++ omitted
         ≡ₚ filter_by [("is_featured", VBool true)] (table Publication (db w))
    /\ ((length (filter_by [("is_featured", VBool true)] (table Publication (db w))) <= 5)%nat
        -> omitted = [])
    /\ (forall shown left_out,
          shown ∈ context_list "featured_publications" resp -> left_out ∈ omitted ->
          null_le (int_of (getattr left_out "year")) (int_of (getattr shown "year"))).
Proof.
  set (featured := filter_by [("is_featured", VBool true)] (table Publication (db w))).
  eexists. exists (drop 5 (order_by_desc "year" featured)).
  split; [cbv [home query bind get ret]; reflexivity|].
  change (context_list "featured_publications" _)
    with (take 5 (order_by_desc "year" featured)).
  split; [|split].
  - rewrite take_drop. apply order_by_desc_perm.
  - intros Hlen. apply drop_ge.
    rewrite (Permutation_length (order_by_desc_perm "year" featured)). exact Hlen.
  - intros shown left_out Hs Hl.
    pose proof (order_by_desc_sorted "year" featured) as Hsorted.
    rewrite <- (take_drop 5 (order_by_desc "year" featured)) in Hsorted.
    exact (StronglySorted_app_1_elem_of _ _ _ _ _ Hsorted Hs Hl).
Qed.

(** ** More on the BibTeX save *)

Lemma chars_str_remove c s : c ∉ chars (str_remove c s).
Proof.
  induction s as [|a s IH]; simpl; [apply not_elem_of_nil|].
  destruct (Ascii.eqb a c) eqn:Hac; [done|].
  simpl. apply not_elem_of_cons. split; [|done].
  intros ->. by rewrite Ascii.eqb_refl in Hac.
Qed.

Lemma chars_str_remove_subseteq c s : chars (str_remove c s) ⊆ chars s.
Proof.
  induction s as [|a s IH]; simpl; [done|].
  destruct (Ascii.eqb a c); simpl.
  - intros x Hx. right. auto.
  - intros x [->|Hx]%elem_of_cons; [left|right; auto].
Qed.

Section PublicationSaveMore.

Variable loads : value -> result (list (gmap string string)).
Variable int : string -> result Z.

(** The save hook, case by case on what the parser and [int] return. *)
Lemma publication_save_run (f : form) (is_created : bool) (pub : row) (w : world) :
  PublicationModelView_on_model_change loads int f is_created (pub, w) =
  match loads (getattr pub "bibtex") with
  | Raise e =>
      (Ok tt, (pub, set_stdout (stdout w ++ ["Error parsing BibTeX: " +:+ exn_message e]) w))
  | Ok [] => (Ok tt, (pub, w))
  | Ok (entry :: _) =>
      let pub1 := assign_title_authors_venue entry pub in
      if truthy (entry_get_opt entry "year") then
        match int (entry_get entry "year") with
        | Ok n => (Ok tt, (setattr "url" (VStr (entry_get entry "url"))
                             (setattr "year" (VInt n) pub1), w))
        | Raise e =>
            (Ok tt, (pub1, set_stdout
                             (stdout w ++ ["Error parsing BibTeX: " +:+ exn_message e]) w))
        end
      else (Ok tt, (setattr "url" (VStr (entry_get entry "url"))
                      (setattr "year" VNone pub1), w))
  end.
Proof.
  rewrite on_model_change_run, parse_bibtex_run, parse_bibtex_body_run.
  destruct (loads (getattr pub "bibtex")) as [[|entry rest]|e]; try reflexivity.
  simpl. destruct (truthy (entry_get_opt entry "year")); [|reflexivity].
  destruct (int (entry_get entry "year")); reflexivity.
Qed.

Lemma venue_choice (entry : gmap string string) :
  (if truthy (entry_get_opt entry "booktitle")
   then entry_get_opt entry "booktitle"
   else VStr (entry_get entry "journal"))
  = VStr (entry_venue entry).
Proof.
  unfold entry_venue, entry_get_opt. destruct (entry !! "booktitle") as [b|]; simpl.
  - destruct (String.eqb b EmptyString); reflexivity.
  - reflexivity.
Qed.

(** X14.  A save whose text parses to an entry with a numeric year stores
    the title with every brace removed, the author field, the booktitle
    when the entry has a non-empty one and the journal otherwise, the
    year as an integer and the url; a field the entry lacks is stored as
    the empty string; nothing is printed. *)
Theorem publication_save_success (f : form) (is_created : bool) (pub : row) (w : world)
    entry rest y n :
  loads (getattr pub "bibtex") = Ok (entry :: rest) ->
  entry !! "year" = Some y -> y <> EmptyString -> int y = Ok n ->
  exists pub',
    PublicationModelView_on_model_change loads int f is_created (pub, w)
      = (Ok tt, (pub', w))
    /\ getattr pub' "title"
       = VStr (str_remove "}"%char (str_remove "{"%char
                 (default EmptyString (entry !! "title"))))
    /\ getattr pub' "authors" = VStr (default EmptyString (entry !! "author"))
    /\ getattr pub' "venue" = VStr (entry_venue entry)
    /\ getattr pub' "year" = VInt n
    /\ getattr pub' "url" = VStr (default EmptyString (entry !! "url")).
Proof.
  intros Hloads Hy Hne Hint.
  rewrite publication_save_run, Hloads. simpl.
  assert (truthy (entry_get_opt entry "year") = true) as ->.
  { apply truthy_entry_year. eauto. }
  unfold entry_get at 1. rewrite Hy. simpl. rewrite Hint.
  eexists. split; [reflexivity|].
  unfold assign_title_authors_venue. rewrite venue_choice.
  unfold getattr, setattr, entry_get.
  repeat split;
    repeat (first [rewrite lookup_insert_eq | rewrite lookup_insert_ne by done]); done.
Qed.

(** X15.  Whenever the text parses to at least one entry, the title the
    save stores contains no brace, whether the year conversion then
    succeeds or fails. *)
Theorem publication_save_title_without_braces
    (f : form) (is_created : bool) (pub : row) (w : world) entry rest :
  loads (getattr pub "bibtex") = Ok (entry :: rest) ->
  exists pub' w' title,
    PublicationModelView_on_model_change loads int f is_created (pub, w)
      = (Ok tt, (pub', w'))
    /\ getattr pub' "title" = VStr title
    /\ ("{"%char ∉ chars title) /\ ("}"%char ∉ chars title)
    /\ chars title ⊆ chars (default EmptyString (entry !! "title")).
Proof.
  intros Hloads. rewrite publication_save_run, Hloads. simpl.
  assert (Htitle : forall p : row,
             getattr (assign_title_authors_venue entry p) "title"
             = VStr (str_remove "}"%char (str_remove "{"%char (entry_get entry "title")))).
  { intros p. unfold assign_title_authors_venue, getattr, setattr.
    rewrite !lookup_insert_ne by done. by rewrite lookup_insert_eq. }
  set (title := str_remove "}"%char (str_remove "{"%char (entry_get entry "title"))) in *.
  assert (Hprops : ("{"%char ∉ chars title) /\ ("}"%char ∉ chars title)
                   /\ chars title ⊆ chars (default EmptyString (entry !! "title"))).
  { subst title. split; [|split].
    - intros H. apply chars_str_remove_subseteq in H. by apply chars_str_remove in H.
    - apply chars_str_remove.
    - etrans; apply chars_str_remove_subseteq. }
  destruct (truthy (entry_get_opt entry "year")).
  - destruct (int (entry_get entry "year")); do 3 eexists;
      (split; [reflexivity|]); (split; [|exact Hprops]).
    + unfold getattr, setattr. rewrite !lookup_insert_ne by done. apply Htitle.
    + apply Htitle.
  - do 3 eexists. split; [reflexivity|]. split; [|exact Hprops].
    unfold getattr, setattr. rewrite !lookup_insert_ne by done. apply Htitle.
Qed.

(** X16.  Whatever the parser and [int] return, the save touches only the
    five parsed fields of the record: every other attribute (the text
    itself, the featured flag, the citation count, the scholar link, the
    id) keeps its value, and of the world only the console can grow. *)
Theorem publication_save_frame (f : form) (is_created : bool) (pub : row) (w : world) :
  exists pub' w',
    PublicationModelView_on_model_change loads int f is_created (pub, w)
      = (Ok tt, (pub', w'))
    /\ (forall k, k ∉ parsed_fields -> pub' !! k = pub !! k)
    /\ db w' = db w /\ session_new w' = session_new w /\ fs w' = fs w
    /\ login_session w' = login_session w /\ flashes w' = flashes w
    /\ stdout w `prefix_of` stdout w'.
Proof.
  rewrite publication_save_run.
  assert (Hkeep : forall entry (p : row) k, k ∉ parsed_fields ->
                    assign_title_authors_venue entry p !! k = p !! k).
  { intros entry p k Hk. apply assign_title_authors_venue_other;
      intros ->; apply Hk; unfold parsed_fields; set_solver. }
  assert (Hkeep2 : forall entry (p : row) v1 v2 k, k ∉ parsed_fields ->
                    setattr "url" v1 (setattr "year" v2
                      (assign_title_authors_venue entry p)) !! k = p !! k).
  { intros entry p v1 v2 k Hk. unfold setattr.
    rewrite !lookup_insert_ne; [by apply Hkeep| |];
      intros <-; apply Hk; unfold parsed_fields; set_solver. }
  destruct (loads (getattr pub "bibtex")) as [[|entry rest]|e]; simpl.
  - do 2 eexists. split; [reflexivity|]. repeat split; done.
  - destruct (truthy (entry_get_opt entry "year")).
    + destruct (int (entry_get entry "year")); do 2 eexists;
        (split; [reflexivity|]); simpl; repeat split; auto;
        by apply prefix_app_r.
    + do 2 eexists. split; [reflexivity|]. repeat split; auto.
  - do 2 eexists. split; [reflexivity|]. simpl. repeat split; auto.
    by apply prefix_app_r.
Qed.

(** X17.  A text in which the parser finds no entry leaves the record and
    the world exactly as they were: no field is cleared and nothing is
    printed. *)
Theorem publication_save_no_entry (f : form) (is_created : bool) (pub : row) (w : world) :
  loads (getattr pub "bibtex") = Ok [] ->
  PublicationModelView_on_model_change loads int f is_created (pub, w) = (Ok tt, (pub, w)).
Proof.
  intros Hloads. by rewrite publication_save_run, Hloads.
Qed.

(** X18.  Saving twice is saving once: a second save of the record the
    first one produced leaves that record unchanged. *)
Theorem publication_save_idempotent (f f' : form) (c c' : bool) (pub : row) (w : world) :
  exists pub' w' w'',
    PublicationModelView_on_model_change loads int f c (pub, w) = (Ok tt, (pub', w'))
    /\ PublicationModelView_on_model_change loads int f' c' (pub', w')
       = (Ok tt, (pub', w'')).
Proof.
  assert (Hbib : forall entry (p : row),
             getattr (assign_title_authors_venue entry p) "bibtex" = getattr p "bibtex").
  { intros entry p. unfold getattr. by rewrite assign_title_authors_venue_other. }
  assert (Hassign : forall entry (p : row),
             assign_title_authors_venue entry (assign_title_authors_venue entry p)
             = assign_title_authors_venue entry p).
  { intros entry p. unfold assign_title_authors_venue, setattr.
    apply map_eq. intros k. rewrite !lookup_insert. repeat case_decide; done. }
  assert (Hfull : forall entry v1 v2 (p : row),
             setattr "url" v1 (setattr "year" v2 (assign_title_authors_venue entry
               (setattr "url" v1 (setattr "year" v2 (assign_title_authors_venue entry p)))))
             = setattr "url" v1 (setattr "year" v2 (assign_title_authors_venue entry p))).
  { intros entry v1 v2 p. unfold assign_title_authors_venue, setattr.
    apply map_eq. intros k. rewrite !lookup_insert. repeat case_decide; done. }
  rewrite (publication_save_run f c pub w).
  destruct (loads (getattr pub "bibtex")) as [[|entry rest]|e] eqn:Hloads; simpl.
  - do 3 eexists. split; [reflexivity|].
    rewrite publication_save_run, Hloads. reflexivity.
  - destruct (truthy (entry_get_opt entry "year")) eqn:Hy.
    + destruct (int (entry_get entry "year")) eqn:Hint.
      * do 3 eexists. split; [reflexivity|].
        rewrite publication_save_run.
        assert (getattr (setattr "url" (VStr (entry_get entry "url"))
                  (setattr "year" (VInt a) (assign_title_authors_venue entry pub))) "bibtex"
                = getattr pub "bibtex") as ->.
        { unfold getattr, setattr. rewrite !lookup_insert_ne by done. apply Hbib. }
        rewrite Hloads. simpl. rewrite Hy, Hint, Hfull. reflexivity.
      * do 3 eexists. split; [reflexivity|].
        rewrite publication_save_run, Hbib, Hloads. simpl.
        rewrite Hy, Hint, Hassign. reflexivity.
    + do 3 eexists. split; [reflexivity|].
      rewrite publication_save_run.
      assert (getattr (setattr "url" (VStr (entry_get entry "url"))
                (setattr "year" VNone (assign_title_authors_venue entry pub))) "bibtex"
              = getattr pub "bibtex") as ->.
      { unfold getattr, setattr. rewrite !lookup_insert_ne by done. apply Hbib. }
      rewrite Hloads. simpl. rewrite Hy, Hfull. reflexivity.
  - do 3 eexists. split; [reflexivity|].
    rewrite publication_save_run. simpl. rewrite Hloads. reflexivity.
Qed.

End PublicationSaveMore.

(** ** More on the Professor photo hook *)

(** X19.  The hook removes nothing and fails on nothing when there is
    nothing to clean up: on a creation, when the form has no photo field,
    when the model holds no photo, when the form's photo data is the
    model's photo, or when no file is stored under the old photo's
    path. *)
Theorem professor_hook_nothing_to_clean (f : form) (is_created : bool)
    (model : row) (w : world) :
  (is_created = true
   \/ f !! "photo" = None
   \/ getattr model "photo" = VNone
   \/ getattr model "photo" = VStr EmptyString
   \/ f !! "photo" = Some (FieldValue (getattr model "photo"))
   \/ exists old old_path,
        getattr model "photo" = VStr old
        /\ os_path_join professor_upload_dir (VStr old) = Ok old_path
        /\ fs w !! old_path = None) ->
  on_model_change ProfessorModelView f is_created (model, w) = (Ok tt, (model, w)).
Proof.
  intros Hcase. rewrite professor_hook_run.
  destruct is_created; [reflexivity|]. simpl.
  destruct (f !! "photo") as [photo_data|] eqn:Hf; [|reflexivity].
  destruct Hcase as [?|[?|[Hn|[He|[Hsame|(old & old_path & Hold & Hjoin & Hfile)]]]]];
    try discriminate.
  - rewrite Hn. reflexivity.
  - rewrite He. reflexivity.
  - injection Hsame as ->. simpl. rewrite bool_decide_eq_true_2 by done.
    simpl. rewrite andb_false_r. reflexivity.
  - rewrite Hold, Hjoin, Hfile.
    destruct (truthy (VStr old) && py_ne (VStr old) photo_data); reflexivity.
Qed.

(** X20.  The stored photo name is used as a path: when it is absolute,
    the file the hook removes is the file of that name itself, outside
    the professor upload directory. *)
Theorem professor_hook_absolute_name (f : form) (model : row) (w : world)
    (old : string) (photo_data : field_data) :
  f !! "photo" = Some photo_data ->
  getattr model "photo" = VStr old ->
  startswith "/"%char old = true ->
  py_ne (VStr old) photo_data = true ->
  fs w !! old = Some File ->
  on_model_change ProfessorModelView f false (model, w)
    = (Ok tt, (model, set_fs (delete old (fs w)) w)).
Proof.
  intros Hf Hphoto Habs Hdiff Hfile. rewrite professor_hook_run. simpl.
  rewrite Hf, Hphoto, Hdiff. simpl. rewrite Habs.
  assert (String.eqb old EmptyString = false) as ->.
  { destruct old; [discriminate|reflexivity]. }
  simpl. rewrite Hfile. reflexivity.
Qed.

(** X21.  When the photo the model holds is a plain file name, as the
    upload field stores them, the hook never changes the model, the
    database, the session or the console, never creates a file and leaves
    every path but the photo's as it was: a path whose entry differs
    afterwards is the file of that name in the professor upload
    directory, and it is gone. *)
Theorem professor_hook_frame (f : form) (is_created : bool) (model : row) (w : world)
    r model' w' :
  (forall old, getattr model "photo" = VStr old -> old <> EmptyString -> plain_name old) ->
  on_model_change ProfessorModelView f is_created (model, w) = (r, (model', w')) ->
  model' = model
  /\ db w' = db w /\ session_new w' = session_new w /\ stdout w' = stdout w
  /\ login_session w' = login_session w /\ flashes w' = flashes w
  /\ (forall path, fs w' !! path = fs w !! path
                   \/ (fs w' !! path = None /\ fs w !! path = Some File
                       /\ exists old, getattr model "photo" = VStr old
                                      /\ plain_name old
                                      /\ path = professor_upload_dir +:+ "/" +:+ old)).
Proof.
  intros Hplain. rewrite professor_hook_run.
  destruct (negb is_created); [|intros [= <- <- <-]; repeat split; auto].
  destruct (f !! "photo") as [photo_data|]; [|intros [= <- <- <-]; repeat split; auto].
  destruct (truthy (getattr model "photo") && py_ne (getattr model "photo") photo_data)
    eqn:Hcond; [|intros [= <- <- <-]; repeat split; auto].
  destruct (os_path_join professor_upload_dir (getattr model "photo")) as [old_path|e]
    eqn:Hjoin; [|intros [= <- <- <-]; repeat split; auto].
  destruct (fs w !! old_path) as [[|]|] eqn:Hfile;
    intros [= <- <- <-]; repeat split; auto.
  intros path. simpl. destruct (decide (path = old_path)) as [->|Hne].
  - right. rewrite lookup_delete_eq. split; [done|]. split; [done|].
    apply andb_true_iff in Hcond as [Htruthy _].
    destruct (getattr model "photo") as [| | |old|] eqn:Hphoto; try discriminate Hjoin.
    assert (Hold : plain_name old).
    { apply Hplain; [done|]. intros ->. discriminate Htruthy. }
    exists old. split; [done|]. split; [done|].
    rewrite (upload_path professor_upload_dir old) in Hjoin by done.
    by injection Hjoin as <-.
  - left. by rewrite lookup_delete_ne.
Qed.

(** ** More on passwords *)

Section PasswordsMore.

Variable generate_password_hash : string -> string -> string.

(** X22.  [set_password] replaces the stored hash and nothing else: every
    other attribute keeps its value, and setting a second password
    leaves no trace of the first, the record being the one a single call
    with the second password gives. *)
Theorem set_password_overwrites (user : row) salt1 p1 salt2 p2 :
  (forall k, k <> "password_hash" ->
             set_password generate_password_hash salt1 p1 user !! k = user !! k)
  /\ getattr (set_password generate_password_hash salt1 p1 user) "password_hash"
     = VStr (generate_password_hash salt1 p1)
  /\ set_password generate_password_hash salt2 p2
       (set_password generate_password_hash salt1 p1 user)
     = set_password generate_password_hash salt2 p2 user.
Proof.
  unfold set_password, setattr, getattr. split; [|split].
  - intros k Hk. by rewrite lookup_insert_ne.
  - by rewrite lookup_insert_eq.
  - apply insert_insert_eq.
Qed.

End PasswordsMore.

(** ** More on the bootstrap *)

Lemma step_query {A} cls (k : list row -> M world A) w :
  bind (query cls) k w = k (table cls (db w)) w.
Proof. reflexivity. Qed.

Lemma step_skip {A} (m : M world unit) (k : unit -> M world A) (rows : list row) w :
  rows <> [] -> bind (when (bool_decide (first rows = None)) m) k w = k tt w.
Proof. intros H. destruct rows; [done|]. reflexivity. Qed.

Lemma step_enter {A} (m : M world unit) (k : unit -> M world A) w :
  bind (when (bool_decide (first ([] : list row) = None)) m) k w = bind m k w.
Proof. reflexivity. Qed.

(** One seeding block: construct, add to the session, print. *)
Lemma seed_block_run cls (res : result row) (g : row -> row) line w :
  bind (lift_result res) (fun obj => bind (session_add cls (g obj)) (fun _ => print line)) w
  = match res with
    | Ok r => (Ok tt, set_stdout (stdout w ++ [line])
                        (set_session_new (session_new w ++ [(cls, g r)]) w))
    | Raise e => (Raise e, w)
    end.
Proof. destruct res; reflexivity. Qed.

Section BootstrapMore.

Variable generate_password_hash : string -> string -> string.

(** X23.  On a store in which every seeded table already holds a row and
    no object is pending, the bootstrap adds nothing and changes no row:
    it only prints its closing line. *)
Theorem create_default_data_populated salt (w : world) :
  table AdminUser (db w) <> [] -> table Professor (db w) <> [] ->
  table LabInfo (db w) <> [] -> table Student (db w) <> [] ->
  table Project (db w) <> [] ->
  session_new w = [] ->
  create_default_data generate_password_hash salt w
  = (Ok tt, set_stdout (stdout w ++ ["Default data creation complete!"]) w).
Proof.
  intros Ha Hp Hl Hs Hj Hnew. unfold create_default_data.
  rewrite step_query, step_skip by done.
  rewrite step_query, step_skip by done.
  rewrite step_query, step_skip by done.
  rewrite step_query, step_skip by done.
  rewrite step_query, step_skip by done.
  unfold bind, session_commit. rewrite Hnew. simpl.
  destruct w; simpl in *. subst. reflexivity.
Qed.

(** X24.  Whenever the LabInfo table is empty the bootstrap raises the
    TypeError of the LabInfo constructor, whatever the other tables hold,
    and commits nothing: the database is unchanged. *)
Theorem create_default_data_without_lab_info salt (w : world) :
  table LabInfo (db w) = [] ->
  exists w',
    create_default_data generate_password_hash salt w
      = (Raise (TypeError "'focus_statement' is an invalid keyword argument for LabInfo"), w')
    /\ db w' = db w.
Proof.
  intros Hl. unfold create_default_data.
  assert (Hraise : forall (A : Type) (w0 : world) (k : unit -> M world A) line,
    db w0 = db w ->
    forall (res : result row),
      res = Raise (TypeError "'focus_statement' is an invalid keyword argument for LabInfo") ->
      exists w',
        bind (when true (bind (lift_result res)
                (fun obj => bind (session_add LabInfo obj) (fun _ => print line)))) k w0
        = (Raise (TypeError "'focus_statement' is an invalid keyword argument for LabInfo"), w')
        /\ db w' = db w).
  { intros A w0 k line Hdb res ->. exists w0. split; [reflexivity|done]. }
  rewrite step_query.
  destruct (table AdminUser (db w)) as [|a la] eqn:Ha.
  - rewrite step_enter.
    match goal with
    | |- context [new AdminUser ?kw] =>
        assert (Hok : is_ok (new AdminUser kw) = true) by (vm_compute; reflexivity);
        destruct (new AdminUser kw) as [admin|]; [clear Hok|discriminate]
    end.
    unfold bind at 1. unfold bind at 1. unfold lift_result at 1.
    unfold bind at 1. unfold session_add at 1, modify at 1.
    unfold print at 1, modify at 1.
    rewrite step_query. cbn [db set_stdout set_session_new].
    destruct (table Professor (db w)) as [|p lp] eqn:Hp.
    + rewrite step_enter.
      match goal with
      | |- context [new Professor ?kw] =>
          assert (Hok : is_ok (new Professor kw) = true) by (vm_compute; reflexivity);
          destruct (new Professor kw) as [prof|]; [clear Hok|discriminate]
      end.
      unfold bind at 1. unfold bind at 1. unfold lift_result at 1.
      unfold bind at 1. unfold session_add at 1, modify at 1.
      unfold print at 1, modify at 1.
      rewrite step_query. cbn [db set_stdout set_session_new]. rewrite Hl.
      apply Hraise; [reflexivity|vm_compute; reflexivity].
    + rewrite step_skip by done.
      rewrite step_query. cbn [db set_stdout set_session_new]. rewrite Hl.
      apply Hraise; [reflexivity|vm_compute; reflexivity].
  - rewrite step_skip by done.
    rewrite step_query.
    destruct (table Professor (db w)) as [|p lp] eqn:Hp.
    + rewrite step_enter.
      match goal with
      | |- context [new Professor ?kw] =>
          assert (Hok : is_ok (new Professor kw) = true) by (vm_compute; reflexivity);
          destruct (new Professor kw) as [prof|]; [clear Hok|discriminate]
      end.
      unfold bind at 1. unfold bind at 1. unfold lift_result at 1.
      unfold bind at 1. unfold session_add at 1, modify at 1.
      unfold print at 1, modify at 1.
      rewrite step_query. cbn [db set_stdout set_session_new]. rewrite Hl.
      apply Hraise; [reflexivity|vm_compute; reflexivity].
    + rewrite step_skip by done.
      rewrite step_query. rewrite Hl.
      apply Hraise; [reflexivity|vm_compute; reflexivity].
Qed.

End BootstrapMore.

Section BootstrapSeeds.

Variable generate_password_hash : string -> string -> string.
Variable check_password_hash : string -> string -> bool.

(** The bootstrap on a store that holds lab information and otherwise at
    most publications. *)
Lemma create_default_data_seeds_run salt lab labs publications console now files :
  create_default_data generate_password_hash salt
    (lab_info_store (lab :: labs) publications console now files)
  = (Ok tt,
     World {[ "LabInfo" := lab :: labs; "Publication" := publications;
              "AdminUser" := [seeded_admin (generate_password_hash salt "changeme123")];
              "Professor" := [seeded_professor];
              "Student" := [seeded_student now];
              "Project" := [seeded_project now] ]}
           []
           (((((console
                ++ ["Created default admin user - username: admin, password: changeme123"])
               ++ ["Created default professor profile"])
              ++ ["Created sample student"])
             ++ ["Created sample project"])
            ++ ["Default data creation complete!"])%list
           now files None []).
Proof. vm_compute. reflexivity. Qed.

(** X25.  On a store that holds lab information and otherwise at most
    publications, the bootstrap succeeds: it commits exactly one
    administrator, professor, student and project with the placeholder
    content, id 1 and the column defaults, leaves the lab information and
    the publications as they were and the session empty.  The student is a
    current PhD student and the project is ongoing; and when the hash of
    the default password verifies that password, a login with the printed
    credentials is accepted for the committed administrator. *)
Theorem create_default_data_seeds salt lab labs publications console now files :
  check_password_hash (generate_password_hash salt "changeme123") "changeme123" = true ->
  exists w',
    create_default_data generate_password_hash salt
      (lab_info_store (lab :: labs) publications console now files) = (Ok tt, w')
    /\ table AdminUser (db w')
       = [seeded_admin (generate_password_hash salt "changeme123")]
    /\ table Professor (db w') = [seeded_professor]
    /\ table Student (db w') = [seeded_student now]
    /\ table Project (db w') = [seeded_project now]
    /\ table LabInfo (db w') = lab :: labs
    /\ table Publication (db w') = publications
    /\ session_new w' = []
    /\ admin_login check_password_hash (login_request "admin" "changeme123") w'
       = (Ok (redirect (url_for "admin.index" [])),
          set_flashes [("success", "Welcome back, Lab Administrator!")]
            (set_login_session (Some 1) w')).
Proof.
  intros Hhash. rewrite create_default_data_seeds_run.
  eexists. split; [reflexivity|].
  do 7 (split; [reflexivity|]).
  rewrite (admin_login_accepted check_password_hash (login_request "admin" "changeme123")
             _ "admin" "changeme123"
             (seeded_admin (generate_password_hash salt "changeme123"))).
  - reflexivity.
  - reflexivity.
  - reflexivity.
  - reflexivity.
  - discriminate.
  - reflexivity.
  - discriminate.
  - vm_compute. reflexivity.
  - unfold check_password.
    change (getattr (seeded_admin (generate_password_hash salt "changeme123"))
              "password_hash")
      with (VStr (generate_password_hash salt "changeme123")).
    cbv beta iota. by rewrite Hhash.
Qed.

End BootstrapSeeds.

(** The home page of a store without rows. *)
Lemma home_empty_store_witness :
  db (world_of ∅) = ∅
  /\ exists resp,
       home (world_of ∅) = (Ok resp, world_of ∅)
       /\ context_object "lab_info" resp = None
       /\ context_object "professor" resp = None
       /\ Forall (fun name => context_list name resp = [])
            ["current_phd"; "current_masters"; "former_phd"; "former_masters";
             "ongoing_projects"; "completed_projects"; "featured_publications"].
Proof.
  split; [reflexivity|]. apply (home_empty_store (world_of ∅)). reflexivity.
Defined.


(** A project with a second image, an empty third and no fourth. *)
Lemma project_detail_images_witness :
  exists images,
    project_detail 1 project_world = (Ok (ProjectPage stored_project images), project_world)
    /\ images
       = List.filter truthy
           [getattr stored_project "image2"; getattr stored_project "image3";
            getattr stored_project "image4"]
    /\ (length images <= 3)%nat
    /\ Forall (fun v => truthy v = true) images
    /\ (forall v, v ∈ images <->
                  truthy v = true
                  /\ (v = getattr stored_project "image2"
                      \/ v = getattr stored_project "image3"
                      \/ v = getattr stored_project "image4"))
    /\ (getattr stored_project "image2" = VNone ->
        getattr stored_project "image3" = VNone ->
        getattr stored_project "image4" = VNone -> images = []).
Proof.
  apply (project_detail_images 1 project_world stored_project). reflexivity.
Defined.

(** An entry with a braced title and the year 2021. *)
Lemma publication_save_success_witness :
  exists pub',
    PublicationModelView_on_model_change example_loads ascii_int empty_form false
      (stored_publication text_2021, world_of ∅) = (Ok tt, (pub', world_of ∅))
    /\ getattr pub' "title"
       = VStr (str_remove "}"%char (str_remove "{"%char
                 (default EmptyString (entry_2021 !! "title"))))
    /\ getattr pub' "authors" = VStr (default EmptyString (entry_2021 !! "author"))
    /\ getattr pub' "venue" = VStr (entry_venue entry_2021)
    /\ getattr pub' "year" = VInt 2021
    /\ getattr pub' "url" = VStr (default EmptyString (entry_2021 !! "url")).
Proof.
  apply (publication_save_success example_loads ascii_int empty_form false
           (stored_publication text_2021) (world_of ∅) entry_2021 [] "2021" 2021).
  - reflexivity.
  - reflexivity.
  - discriminate.
  - reflexivity.
Defined.

(** The braced title of an entry whose year then fails to convert. *)
Lemma publication_save_title_without_braces_witness :
  exists pub' w' title,
    PublicationModelView_on_model_change example_loads ascii_int empty_form false
      (stored_publication text_in_press, world_of ∅) = (Ok tt, (pub', w'))
    /\ getattr pub' "title" = VStr title
    /\ ("{"%char ∉ chars title) /\ ("}"%char ∉ chars title)
    /\ chars title ⊆ chars (default EmptyString (entry_in_press !! "title")).
Proof.
  apply (publication_save_title_without_braces example_loads ascii_int empty_form false
           (stored_publication text_in_press) (world_of ∅) entry_in_press []).
  reflexivity.
Defined.

(** A text that is not BibTeX. *)
Lemma publication_save_no_entry_witness :
  example_loads (getattr (stored_publication "not a citation") "bibtex") = Ok []
  /\ PublicationModelView_on_model_change example_loads ascii_int empty_form false
       (stored_publication "not a citation", world_of ∅)
     = (Ok tt, (stored_publication "not a citation", world_of ∅)).
Proof.
  split; [reflexivity|].
  apply (publication_save_no_entry example_loads ascii_int empty_form false
           (stored_publication "not a citation") (world_of ∅)).
  reflexivity.
Defined.

(** A creation with an upload. *)
Lemma professor_hook_nothing_to_clean_witness :
  on_model_change ProfessorModelView (photo_form (FileStorage "new.png")) true
    (stored_professor, upload_world)
  = (Ok tt, (stored_professor, upload_world)).
Proof.
  apply (professor_hook_nothing_to_clean (photo_form (FileStorage "new.png")) true
           stored_professor upload_world).
  left. reflexivity.
Defined.

(** A stored photo name that is an absolute path. *)
Lemma professor_hook_absolute_name_witness :
  getattr absolute_photo_professor "photo" = VStr "/srv/site/app.py"
  /\ fs absolute_photo_world !! "/srv/site/app.py" = Some File
  /\ on_model_change ProfessorModelView (photo_form (FileStorage "new.png")) false
       (absolute_photo_professor, absolute_photo_world)
     = (Ok tt, (absolute_photo_professor,
                set_fs (delete "/srv/site/app.py" (fs absolute_photo_world))
                       absolute_photo_world)).
Proof.
  split; [reflexivity|]. split; [reflexivity|].
  apply (professor_hook_absolute_name (photo_form (FileStorage "new.png"))
           absolute_photo_professor absolute_photo_world "/srv/site/app.py"
           (FileStorage "new.png")).
  - reflexivity.
  - reflexivity.
  - reflexivity.
  - reflexivity.
  - reflexivity.
Defined.

(** The update that replaces old.png. *)
Lemma professor_hook_frame_witness :
  (forall old, getattr stored_professor "photo" = VStr old -> old <> EmptyString ->
               plain_name old)
  /\ on_model_change ProfessorModelView (photo_form (FileStorage "new.png")) false
       (stored_professor, upload_world)
     = (Ok tt, (stored_professor,
                set_fs (delete "static/uploads/professor/old.png" (fs upload_world))
                       upload_world))
  /\ db (set_fs (delete "static/uploads/professor/old.png" (fs upload_world)) upload_world)
     = db upload_world
  /\ (fs (set_fs (delete "static/uploads/professor/old.png" (fs upload_world)) upload_world)
        !! "static/uploads/professor/.gitkeep"
      = fs upload_world !! "static/uploads/professor/.gitkeep"
      \/ (fs (set_fs (delete "static/uploads/professor/old.png" (fs upload_world))
                upload_world) !! "static/uploads/professor/.gitkeep" = None
          /\ fs upload_world !! "static/uploads/professor/.gitkeep" = Some File
          /\ exists old, getattr stored_professor "photo" = VStr old
                         /\ plain_name old
                         /\ "static/uploads/professor/.gitkeep"
                            = professor_upload_dir +:+ "/" +:+ old)).
Proof.
  assert (Hplain : forall old, getattr stored_professor "photo" = VStr old ->
                               old <> EmptyString -> plain_name old).
  { intros old H _. vm_compute in H. injection H as <-. solve_plain_name. }
  assert (H : on_model_change ProfessorModelView (photo_form (FileStorage "new.png")) false
                (stored_professor, upload_world)
              = (Ok tt, (stored_professor,
                         set_fs (delete "static/uploads/professor/old.png" (fs upload_world))
                                upload_world)))
    by (vm_compute; reflexivity).
  split; [exact Hplain|]. split; [exact H|].
  destruct (professor_hook_frame _ _ _ _ _ _ _ Hplain H) as (_ & Hdb & _ & _ & _ & _ & Hfs).
  split; [exact Hdb | exact (Hfs "static/uploads/professor/.gitkeep")].
Defined.

(** A second run of the bootstrap. *)
Lemma create_default_data_populated_witness :
  create_default_data plain_hash "salt" populated_world
  = (Ok tt, set_stdout (stdout populated_world ++ ["Default data creation complete!"])
              populated_world).
Proof.
  apply (create_default_data_populated plain_hash "salt" populated_world);
    try discriminate. reflexivity.
Defined.

(** A store that lost its lab information only. *)
Lemma create_default_data_without_lab_info_witness :
  table LabInfo (db admin_world) = []
  /\ exists w',
       create_default_data plain_hash "salt" admin_world
         = (Raise (TypeError "'focus_statement' is an invalid keyword argument for LabInfo"),
            w')
       /\ db w' = db admin_world.
Proof.
  split; [reflexivity|].
  apply (create_default_data_without_lab_info plain_hash "salt" admin_world). reflexivity.
Defined.

(** The first run once lab information exists, with the clear-text hash. *)
Lemma create_default_data_seeds_witness :
  plain_check (plain_hash "salt" "changeme123") "changeme123" = true
  /\ exists w',
       create_default_data plain_hash "salt"
         (lab_info_store [ ({[ "id" := VInt 1 ]} : row) ] [] [] 0 ∅) = (Ok tt, w')
       /\ table AdminUser (db w') = [seeded_admin (plain_hash "salt" "changeme123")]
       /\ table Professor (db w') = [seeded_professor]
       /\ table Student (db w') = [seeded_student 0]
       /\ table Project (db w') = [seeded_project 0]
       /\ table LabInfo (db w') = [ ({[ "id" := VInt 1 ]} : row) ]
       /\ table Publication (db w') = []
       /\ session_new w' = []
       /\ admin_login plain_check (login_request "admin" "changeme123") w'
          = (Ok (redirect (url_for "admin.index" [])),
             set_flashes [("success", "Welcome back, Lab Administrator!")]
               (set_login_session (Some 1) w')).
Proof.
  split; [reflexivity|].
  apply (create_default_data_seeds plain_hash plain_check "salt"
           ({[ "id" := VInt 1 ]} : row) [] [] [] 0 ∅).
  reflexivity.
Defined.
